(** * multer-s3-v2: the storage engine of [src/index.js]

    A shallow embedding of the adapter that streams multipart uploads into
    an S3 bucket: the constructor [S3Storage], the attribute resolver
    [collect], the content-type detector [autoContentType], the upload
    orchestrator [_handleFile] and the removal operation [_removeFile].

    JavaScript values are a tagged union with [typeof] and truthiness,
    callbacks are the outcome they deliver, and the calls the adapter makes
    to its collaborators are recorded in a trace of events. *)

From Stdlib Require Import ZArith Ascii String.
From stdpp Require Import base option list strings gmap.

Local Open Scope string_scope.
Local Open Scope list_scope.
Local Open Scope nat_scope.

(** ** JavaScript values *)

Module JS.

(** The result of [typeof]. *)
Inductive type_tag :=
| TUndefined | TObject | TBoolean | TNumber | TString
| TSymbol | TBigInt | TFunction.

(** A value whose objects carry an [O] and whose functions carry an [F]. *)
Inductive val (O F : Type) : Type :=
| VUndefined
| VNull
| VBool (b : bool)
| VNum (n : Z)
| VStr (s : string)
| VSymbol (description : string)
| VBigInt (n : Z)
| VObj (o : O)
| VFun (f : F).

Arguments VUndefined {O F}.
Arguments VNull {O F}.
Arguments VBool {O F} b.
Arguments VNum {O F} n.
Arguments VStr {O F} s.
Arguments VSymbol {O F} description.
Arguments VBigInt {O F} n.
Arguments VObj {O F} o.
Arguments VFun {O F} f.

(** [typeof v]; note [typeof null === 'object']. *)
Definition typeof {O F} (v : val O F) : type_tag :=
  match v with
  | VUndefined => TUndefined
  | VNull => TObject
  | VBool _ => TBoolean
  | VNum _ => TNumber
  | VStr _ => TString
  | VSymbol _ => TSymbol
  | VBigInt _ => TBigInt
  | VObj _ => TObject
  | VFun _ => TFunction
  end.

(** ToBoolean, as used by [if (v)], [!v] and [a || b]. *)
Definition truthy {O F} (v : val O F) : bool :=
  match v with
  | VUndefined | VNull => false
  | VBool b => b
  | VNum n => negb (n =? 0)%Z
  | VStr s => negb (String.eqb s EmptyString)
  | VSymbol _ => true
  | VBigInt n => negb (n =? 0)%Z
  | VObj _ | VFun _ => true
  end.

(** Thrown or passed as the first argument of a callback. *)
Inductive error :=
| Error (message : string)
| TypeError (message : string).

Definition message (e : error) : string :=
  match e with Error m | TypeError m => m end.

Definition is_TypeError (e : error) : bool :=
  match e with TypeError _ => true | Error _ => false end.

End JS.

Import JS.

(** ** Streams, files and requests *)

Abbreviation chunk := (list Byte.byte).

(** A readable stream is the sequence of chunks it emits. *)
Abbreviation stream := (list chunk).

(** The concatenated bytes of a stream. *)
Definition bytes (s : stream) : list Byte.byte := concat s.

(** A Transform stream maps the chunks written to it to the chunks read
    from it; [src.pipe(t)] is its application. *)
Abbreviation transform := (stream -> stream).

Definition pipe (src : stream) (dest : transform) : stream := dest src.

(** [new PassThrough()]. *)
Definition PassThrough : transform := fun s => s.

(** The request context handed to every strategy. *)
Record Req := { headers : gmap string string }.

(** The file descriptor of the multipart parser. *)
Module File.
Record t := {
  fieldname : string;
  originalname : string;
  mimetype : string;
  stream : list chunk
}.
End File.

(** A resolved attribute: a string, [null], a metadata object, ... *)
Abbreviation value := (val (gmap string string) unit).

(** ** Attribute strategies *)

(** A strategy is called as [strategy(req, file, cb)] and answers through
    [cb(err)] or [cb(null, value)]: it is modelled by what it delivers. *)
Inductive outcome :=
| Failed (err : error)
| Resolved (v : value).

Abbreviation strategy := (Req -> File.t -> outcome).

Definition staticValue (v : value) : strategy :=
  fun _req _file => Resolved v.

Definition defaultAcl : strategy := staticValue (VStr "private").
Definition defaultMetadata : strategy := staticValue VNull.
Definition defaultCacheControl : strategy := staticValue VNull.
Definition defaultContentDisposition : strategy := staticValue VNull.
Definition defaultStorageClass : strategy := staticValue (VStr "STANDARD").
Definition defaultSSE : strategy := staticValue VNull.
Definition defaultSSEKMS : strategy := staticValue VNull.

(** [raw.toString('hex')] *)
Definition hex_digit (n : N) : ascii :=
  match n with
  | 0 => "0" | 1 => "1" | 2 => "2" | 3 => "3" | 4 => "4" | 5 => "5"
  | 6 => "6" | 7 => "7" | 8 => "8" | 9 => "9" | 10 => "a" | 11 => "b"
  | 12 => "c" | 13 => "d" | 14 => "e" | _ => "f"
  end%N%char.

Definition hex_of_byte (b : Byte.byte) : string :=
  let n := Byte.to_N b in
  String (hex_digit (n / 16)) (String (hex_digit (n mod 16)) EmptyString).

Definition toString_hex (raw : list Byte.byte) : string :=
  foldr (fun b acc => hex_of_byte b +:+ acc) EmptyString raw.

(** [defaultKey]: sixteen random bytes in hexadecimal.  [randomBytes] is
    Node's [crypto.randomBytes], which delivers an error or the bytes. *)
Definition defaultKey (randomBytes : nat -> error + list Byte.byte) : strategy :=
  fun _req _file =>
    match randomBytes 16%nat with
    | inl err => Failed err
    | inr raw => Resolved (VStr (toString_hex raw))
    end.

(** ** The content-type strategy *)

(** The content-type strategy answers [cb(err)] or
    [cb(null, contentType, replacementStream)]; [autoContentType] does not
    answer at all while the stream has emitted no chunk. *)
Inductive ct_outcome :=
| CtFailed (err : error)
| CtResolved (contentType : string) (replacementStream : option stream)
| CtPending.

(** What the event loop does next while a content-type strategy runs: the
    file's stream, in flowing mode, emits its next chunk as a ['data']
    event, or the promise a handler awaits is settled and the handler
    resumes.  Chunks that are buffered when the first listener is attached
    are emitted one after the other, before any handler resumes. *)
Inductive tick := Emit | Settle.

Abbreviation ct_strategy := (Req -> File.t -> list tick -> ct_outcome).

Definition defaultContentType : ct_strategy :=
  fun _req _file _ticks => CtResolved "application/octet-stream" None.

(** The state of [autoContentType]'s handler. *)
Inductive phase :=
| Listening
    (* [once('data', ...)] is registered and has not fired *)
| Suspended (firstChunk : chunk) (awaits : nat)
    (* the handler is at an [await]; [once] has removed the listener and
       [pipe] has not been called: the stream has no ['data'] listener *)
| Replaying (mime : string) (outStream : stream).
    (* [outStream.write(firstChunk); file.stream.pipe(outStream)] are done *)

Record detector := {
  source : stream;  (* what [file.stream] has still to emit *)
  state : phase
}.

(** What [fileTypeFromBuffer] finds: an extension and a mime type. *)
Module FileType.
Record t := { ext : string; mime : string }.
End FileType.

Section Detector.

(** [fileTypeFromBuffer] of the file-type package and [isSvg] of is-svg. *)
Variable fileTypeFromBuffer : chunk -> option FileType.t.
Variable isSvg : chunk -> bool.

(** Lines 32-40: the mime type of the first chunk. *)
Definition mime_of (firstChunk : chunk) : string :=
  match fileTypeFromBuffer firstChunk with
  | Some type => FileType.mime type
  | None =>
      if isSvg firstChunk then "image/svg+xml"
      else "application/octet-stream"
  end.

(** The handler resumes from an [await]: after the second one (line 31) it
    runs lines 32-47 to the end. *)
Definition settle (d : detector) : detector :=
  match state d with
  | Suspended firstChunk (S (S n)) =>
      {| source := source d; state := Suspended firstChunk (S n) |}
  | Suspended firstChunk _ =>
      {| source := source d; state := Replaying (mime_of firstChunk) [firstChunk] |}
  | _ => d
  end.

(** The flowing stream emits its next chunk to whoever listens; removing
    a ['data'] listener does not pause it. *)
Definition emit (d : detector) : detector :=
  match source d with
  | [] => d
  | c :: rest =>
      match state d with
      | Listening =>
          (* the handler starts and stops at [await import('file-type')];
             [await fileTypeFromBuffer(firstChunk)] follows *)
          {| source := rest; state := Suspended c 2 |}
      | Suspended firstChunk n =>
          (* a ['data'] event without listener: the chunk is gone *)
          {| source := rest; state := Suspended firstChunk n |}
      | Replaying mime out =>
          {| source := rest; state := Replaying mime (out ++ [c]) |}
      end
  end.

Definition step (d : detector) (t : tick) : detector :=
  match t with
  | Emit => emit d
  | Settle => settle d
  end.

(** After the listed ticks, the promises awaited settle before the stream
    emits again, and the stream runs to its end. *)
Definition finish (d : detector) : detector :=
  let d := if state d is Listening then emit d else d in
  let d := settle (settle d) in
  match state d with
  | Replaying mime out => {| source := []; state := Replaying mime (out ++ source d) |}
  | _ => d
  end.

Definition autoContentType : ct_strategy :=
  fun _req file ticks =>
    let d := finish (foldl step {| source := File.stream file; state := Listening |} ticks) in
    match state d with
    | Replaying mime outStream => CtResolved mime (Some outStream)
    | _ => CtPending
    end.

End Detector.

(** ** The storage collaborator *)

Module Params.
Record t := {
  Bucket : value;
  Key : value;
  ACL : value;
  CacheControl : value;
  ContentType : string;
  Metadata : value;
  StorageClass : value;
  ServerSideEncryption : value;
  SSEKMSKeyId : value;
  Body : stream;
  ContentDisposition : option value  (* set only when truthy *)
}.
End Params.

(** An ['httpUploadProgress'] notification; [total] may be undefined. *)
Record ProgressEvent := { loaded : option Z; total : option Z }.

(** What [send] hands to its callback on success. *)
Module SendData.
Record t := { Location : value; ETag : value; VersionId : value }.
End SendData.

Module DeleteParams.
Record t := { Bucket : value; Key : value }.
End DeleteParams.

(** An S3 client.  [upload(params)] returns a handle; between
    [handle.send(cb)] and the call of [cb] the handle emits progress
    notifications.  [deleteObject(params, cb)] calls [cb(err, data)].
    A method the object does not have is [None]. *)
Module S3.
Record t := {
  upload : option (Params.t -> list ProgressEvent * (error + SendData.t));
  deleteObject : option (DeleteParams.t -> error + value)
}.
End S3.

(** A transform factory of the [transforms] option. *)
Abbreviation factory := (unit -> transform).

(** ** Construction *)

Module Opts.
Record t := {
  s3 : val S3.t unit;
  bucket : val unit strategy;
  key : val unit strategy;
  acl : val unit strategy;
  contentType : val unit ct_strategy;
  metadata : val unit strategy;
  cacheControl : val unit strategy;
  contentDisposition : val unit strategy;
  storageClass : val unit strategy;
  serverSideEncryption : val unit strategy;
  sseKmsKeyId : val unit strategy;
  throwMimeTypeConflictErrors : val unit unit;
  transforms : val (gmap string factory) factory
}.
End Opts.

(** The adapter, [this] in the methods. *)
Module Storage.
Record t := {
  s3 : val S3.t unit;
  getBucket : strategy;
  getKey : strategy;
  getAcl : strategy;
  getContentType : ct_strategy;
  getMetadata : strategy;
  getCacheControl : strategy;
  getContentDisposition : strategy;
  getStorageClass : strategy;
  getSSE : strategy;
  getSSEKMS : strategy;
  throwMimeTypeConflictErrors : val unit unit;
  transforms : val (gmap string factory) factory
}.
End Storage.

(** [throw] and sequencing for the constructor's checks. *)
Definition throw {A} (e : error) : error + A := inl e.

Notation "x <-? c ; k" := (match c with inl e => inl e | inr x => k end)
  (at level 100, c at next level, right associativity, only parsing).

(** The [switch (typeof opts.x)] of an option that takes a function or a
    string and has a default. *)
Definition function_string_or_default
    (opt : val unit strategy) (default : strategy) (msg : string) : error + strategy :=
  match opt with
  | VFun f => inr f
  | VStr s => inr (staticValue (VStr s))
  | VUndefined => inr default
  | _ => throw (TypeError msg)
  end.

(** The [switch] of an option that takes a function and has a default. *)
Definition function_or_default {F}
    (opt : val unit F) (default : F) (msg : string) : error + F :=
  match opt with
  | VFun f => inr f
  | VUndefined => inr default
  | _ => throw (TypeError msg)
  end.

Definition S3Storage (randomBytes : nat -> error + list Byte.byte)
    (opts : Opts.t) : error + Storage.t :=
  s3 <-? match typeof (Opts.s3 opts) with
         | TObject => inr (Opts.s3 opts)
         | _ => throw (TypeError "Expected opts.s3 to be object")
         end ;
  getBucket <-? match Opts.bucket opts with
                | VFun f => inr f
                | VStr s => inr (staticValue (VStr s))
                | VUndefined => throw (Error "bucket is required")
                | _ => throw (TypeError "Expected opts.bucket to be undefined, string or function")
                end ;
  getKey <-? function_or_default (Opts.key opts) (defaultKey randomBytes)
               "Expected opts.key to be undefined or function" ;
  getAcl <-? function_string_or_default (Opts.acl opts) defaultAcl
               "Expected opts.acl to be undefined, string or function" ;
  getContentType <-? function_or_default (Opts.contentType opts) defaultContentType
               "Expected opts.contentType to be undefined or function" ;
  getMetadata <-? function_or_default (Opts.metadata opts) defaultMetadata
               "Expected opts.metadata to be undefined or function" ;
  getCacheControl <-? function_string_or_default (Opts.cacheControl opts) defaultCacheControl
               "Expected opts.cacheControl to be undefined, string or function" ;
  getContentDisposition <-? function_string_or_default (Opts.contentDisposition opts) defaultContentDisposition
               "Expected opts.contentDisposition to be undefined, string or function" ;
  getStorageClass <-? function_string_or_default (Opts.storageClass opts) defaultStorageClass
               "Expected opts.storageClass to be undefined, string or function" ;
  getSSE <-? function_string_or_default (Opts.serverSideEncryption opts) defaultSSE
               "Expected opts.serverSideEncryption to be undefined, string or function" ;
  getSSEKMS <-? function_string_or_default (Opts.sseKmsKeyId opts) defaultSSEKMS
               "Expected opts.sseKmsKeyId to be undefined, string, or function" ;
  inr {|
    Storage.s3 := s3;
    Storage.getBucket := getBucket;
    Storage.getKey := getKey;
    Storage.getAcl := getAcl;
    Storage.getContentType := getContentType;
    Storage.getMetadata := getMetadata;
    Storage.getCacheControl := getCacheControl;
    Storage.getContentDisposition := getContentDisposition;
    Storage.getStorageClass := getStorageClass;
    Storage.getSSE := getSSE;
    Storage.getSSEKMS := getSSEKMS;
    Storage.throwMimeTypeConflictErrors := Opts.throwMimeTypeConflictErrors opts;
    Storage.transforms := Opts.transforms opts
  |}.

(** ** Resolution of the attributes *)

(** The resolved attribute set that [collect] hands to its callback. *)
Module Attrs.
Record t := {
  bucket : value;
  key : value;
  acl : value;
  metadata : value;
  cacheControl : value;
  contentDisposition : value;
  storageClass : value;
  contentType : string;
  replacementStream : option stream;
  serverSideEncryption : value;
  sseKmsKeyId : value
}.
End Attrs.

(** What a callback-taking call has done when the event loop is idle:
    it called back with an error, with a result, or not at all. *)
Inductive answer (A : Type) :=
| Err (err : error)
| Ok (result : A)
| Pending.

Arguments Err {A} err.
Arguments Ok {A} result.
Arguments Pending {A}.

(** [parallel(tasks, cb)] of run-parallel.  Every task is started; [order]
    lists the tasks in the order in which they call back.  Each answer runs
    [results[i] = result; if (--pending === 0 || err) done(err)], and only
    the first [done] reaches [cb]. *)
Fixpoint each (tasks : list outcome) (order : list nat) (pending : nat)
    (results : list value) : answer (list value) :=
  match order with
  | [] => Pending
  | i :: order =>
      match tasks !! i with
      | None => each tasks order pending results
      | Some (Failed err) => Err err
      | Some (Resolved result) =>
          let results := <[i:=result]> results in
          match pending with
          | 1%nat => Ok results
          | _ => each tasks order (pred pending) results
          end
      end
  end.

Definition parallel (tasks : list outcome) (order : list nat) : answer (list value) :=
  match tasks with
  | [] => Ok []
  | _ => each tasks order (length tasks) (replicate (length tasks) VUndefined)
  end.

(** [values[i]] *)
Definition at_index (values : list value) (i : nat) : value :=
  default VUndefined (values !! i).

(** Line 168 calls [this.transforms[file.fieldname]] whether the property
    is the value's own or not.  Where the transforms are truthy, are no
    function and have no factory of their own under the field name, the
    property is looked up in the prototypes of the JavaScript runtime
    ([Object.prototype] for a mapping, after that of its type for a number,
    a string or a boolean), and lines 168-173 end in one of three ways:
    - [Throws err]: there is no such property, it cannot be called or it
      throws when called without arguments (line 168), or it returns a
      truthy value that is no stream, into which [pipe] cannot pipe
      (line 172);
    - [Falsy]: it returns a falsy value, as [hasOwnProperty],
      [isPrototypeOf] and [propertyIsEnumerable] do when called without
      argument, and line 171 skips the pipe;
    - [Piped t]: it returns a stream, and [pipe] returns it. *)
Inductive inherited :=
| Throws (err : error)
| Falsy
| Piped (t : transform).

(** The run-time environment of one call of [_handleFile]: the order in
    which the nine strategies of [collect] call back, the ticks seen by the
    content-type strategy, and what the property does that the transforms
    inherit under the field name of the file. *)
Record Env := {
  completion : list nat;
  ticks : list tick;
  builtin : inherited
}.

(** The nine tasks of line 52, each by what it answers. *)
Definition tasks (storage : Storage.t) (req : Req) (file : File.t) : list outcome := [
  Storage.getBucket storage req file;
  Storage.getKey storage req file;
  Storage.getAcl storage req file;
  Storage.getMetadata storage req file;
  Storage.getCacheControl storage req file;
  Storage.getContentDisposition storage req file;
  Storage.getStorageClass storage req file;
  Storage.getSSE storage req file;
  Storage.getSSEKMS storage req file
].

Definition collect (storage : Storage.t) (req : Req) (file : File.t) (env : Env)
    : answer Attrs.t :=
  match parallel (tasks storage req file) (completion env)
  with
  | Pending => Pending
  | Err err => Err err
  | Ok values =>
      match Storage.getContentType storage req file (ticks env) with
      | CtPending => Pending
      | CtFailed err => Err err
      | CtResolved contentType replacementStream =>
          Ok {|
            Attrs.bucket := at_index values 0;
            Attrs.key := at_index values 1;
            Attrs.acl := at_index values 2;
            Attrs.metadata := at_index values 3;
            Attrs.cacheControl := at_index values 4;
            Attrs.contentDisposition := at_index values 5;
            Attrs.storageClass := at_index values 6;
            Attrs.contentType := contentType;
            Attrs.replacementStream := replacementStream;
            Attrs.serverSideEncryption := at_index values 7;
            Attrs.sseKmsKeyId := at_index values 8
          |}
      end
  end.

(** ** The calls the adapter makes *)

(** The file information that [_handleFile] reports on success. *)
Module Info.
Record t := {
  size : Z;
  bucket : value;
  key : value;
  acl : value;
  contentType : string;
  contentDisposition : value;
  storageClass : value;
  serverSideEncryption : value;
  metadata : value;
  location : value;
  etag : value;
  versionId : value
}.
End Info.

(** What an observer of the adapter sees, in order. *)
Inductive event :=
| Produced (field : option string)
    (* line 168 called a transform factory: the shared one, or the
       mapping's own for the field *)
| Upload (params : Params.t)
    (* [this.s3.upload(params)] followed by [send] *)
| DeleteObject (params : DeleteParams.t)
    (* [this.s3.deleteObject(params, cb)] *)
| Callback (result : error + Info.t)
    (* the [cb] of [_handleFile]: [cb(err)] or [cb(null, info)] *)
| Removed (result : error + value).
    (* the [cb] of [_removeFile], called by the collaborator *)

(** A computation records events and then returns or throws. *)
Definition Eff (A : Type) : Type := list event * (error + A).

Definition ret {A} (a : A) : Eff A := ([], inr a).

Definition raise {A} (e : error) : Eff A := ([], inl e).

Definition tell (ev : event) : Eff unit := ([ev], inr tt).

Definition bind {A B} (m : Eff A) (k : A -> Eff B) : Eff B :=
  match m with
  | (evs, inl e) => (evs, inl e)
  | (evs, inr a) => let '(evs', r) := k a in ((evs ++ evs')%list, r)
  end.

Notation "x <- m ;; k" := (bind m (fun x => k))
  (at level 100, m at next level, right associativity, only parsing).
Notation "m ;; k" := (bind m (fun _ => k))
  (at level 100, right associativity, only parsing).

Definition trace {A} (m : Eff A) : list event := m.1.

Definition thrown {A} (m : Eff A) : option error :=
  match m.2 with inl e => Some e | inr _ => None end.

(** ** [_handleFile] *)

Definition dquote : string := String "034"%char EmptyString.

(** The template literal of line 193. *)
Definition mismatch_message (contentType mimetype originalname : string) : string :=
  "MIMETYPE_MISMATCH: Actual content-type " +:+ dquote +:+ contentType +:+ dquote
  +:+ " does not match the mime-type " +:+ dquote +:+ mimetype +:+ dquote
  +:+ " assumed by the file extension for file " +:+ dquote +:+ originalname +:+ dquote.

(** The property that line 168 finds when the transforms have no factory
    of their own under the field name: an inherited one, if any. *)
Definition call_inherited (env : Env) : Eff (option transform) :=
  match builtin env with
  | Throws err => raise err
  | Falsy => ret None
  | Piped t => ret (Some t)
  end.

(** Line 168, with the test of line 171: no transform, the shared
    factory's, or that of the property under the field name.  The mapping
    holds the factories that are its own properties; a value that is no
    object has none. *)
Definition resolve_transform (this : Storage.t) (file : File.t) (env : Env)
    : Eff (option transform) :=
  if negb (truthy (Storage.transforms this)) then ret None
  else
    match Storage.transforms this with
    | VFun f => tell (Produced None) ;; ret (Some (f tt))
    | VObj fields =>
        match fields !! File.fieldname file with
        | Some f => tell (Produced (Some (File.fieldname file))) ;; ret (Some (f tt))
        | None => call_inherited env
        end
    | _ => call_inherited env
    end.

(** Line 192. *)
Definition mismatch (this : Storage.t) (file : File.t) (opts : Attrs.t) : bool :=
  truthy (Storage.throwMimeTypeConflictErrors this)
  && negb (String.eqb (Attrs.contentType opts) "application/octet-stream")
  && negb (String.eqb (File.mimetype file) (Attrs.contentType opts)).

(** Lines 198-200: the listener on ['httpUploadProgress']. *)
Definition on_progress (currentSize : Z) (ev : ProgressEvent) : Z :=
  match total ev with
  | Some t => if (t =? 0)%Z then currentSize else t
  | None => currentSize
  end.

(** [this.s3.upload]: a property of [null] or a missing method throws. *)
Definition s3_upload (this : Storage.t)
    : Eff (Params.t -> list ProgressEvent * (error + SendData.t)) :=
  match Storage.s3 this with
  | VObj client =>
      match S3.upload client with
      | Some upload => ret upload
      | None => raise (TypeError "this.s3.upload is not a function")
      end
  | _ => raise (TypeError "Cannot read properties of null (reading 'upload')")
  end.

(** Lines 175-190: the parameters of the upload. *)
Definition upload_params (opts : Attrs.t) (fileStream : stream) : Params.t := {|
  Params.Bucket := Attrs.bucket opts;
  Params.Key := Attrs.key opts;
  Params.ACL := Attrs.acl opts;
  Params.CacheControl := Attrs.cacheControl opts;
  Params.ContentType := Attrs.contentType opts;
  Params.Metadata := Attrs.metadata opts;
  Params.StorageClass := Attrs.storageClass opts;
  Params.ServerSideEncryption := Attrs.serverSideEncryption opts;
  Params.SSEKMSKeyId := Attrs.sseKmsKeyId opts;
  Params.Body := fileStream;
  Params.ContentDisposition :=
    if truthy (Attrs.contentDisposition opts)
    then Some (Attrs.contentDisposition opts) else None
|}.

(** Lines 205-218: the file information reported on success. *)
Definition file_info (currentSize : Z) (opts : Attrs.t) (result : SendData.t) : Info.t := {|
  Info.size := currentSize;
  Info.bucket := Attrs.bucket opts;
  Info.key := Attrs.key opts;
  Info.acl := Attrs.acl opts;
  Info.contentType := Attrs.contentType opts;
  Info.contentDisposition := Attrs.contentDisposition opts;
  Info.storageClass := Attrs.storageClass opts;
  Info.serverSideEncryption := Attrs.serverSideEncryption opts;
  Info.metadata := Attrs.metadata opts;
  Info.location := SendData.Location result;
  Info.etag := SendData.ETag result;
  Info.versionId := SendData.VersionId result
|}.

(** Lines 202-219: what the callback of [send] passes on. *)
Definition send_callback (currentSize : Z) (opts : Attrs.t) (sent : error + SendData.t)
    : error + Info.t :=
  match sent with
  | inl err => inl err
  | inr result => inr (file_info currentSize opts result)
  end.

(** Line 193. *)
Definition mismatch_error (file : File.t) (opts : Attrs.t) : error :=
  Error (mismatch_message
    (Attrs.contentType opts) (File.mimetype file) (File.originalname file)).

(** Lines 170-173: the body of the upload. *)
Definition body_stream (file : File.t) (opts : Attrs.t) (transform : option transform)
    : stream :=
  let fileStream := default (File.stream file) (Attrs.replacementStream opts) in
  match transform with
  | Some transform => pipe fileStream transform
  | None => fileStream
  end.

Definition _handleFile (this : Storage.t) (req : Req) (file : File.t) (env : Env)
    : Eff unit :=
  match collect this req file env with
  | Pending => ret tt
  | Err err => tell (Callback (inl err))
  | Ok opts =>
      transform <- resolve_transform this file env ;;
      let params := upload_params opts (body_stream file opts transform) in
      if mismatch this file opts then
        tell (Callback (inl (mismatch_error file opts)))
      else
        upload <- s3_upload this ;;
        tell (Upload params) ;;
        let '(notifications, sent) := upload params in
        let currentSize := foldl on_progress 0%Z notifications in
        tell (Callback (send_callback currentSize opts sent))
  end.

(** ** [_removeFile] *)

(** The file information that the middleware hands back for removal. *)
Module Stored.
Record t := { bucket : value; key : value }.
End Stored.

Definition _removeFile (this : Storage.t) (req : Req) (file : Stored.t) : Eff unit :=
  match Storage.s3 this with
  | VObj client =>
      match S3.deleteObject client with
      | Some deleteObject =>
          let params := {|
            DeleteParams.Bucket := Stored.bucket file;
            DeleteParams.Key := Stored.key file
          |} in
          tell (DeleteObject params) ;;
          tell (Removed (deleteObject params))
      | None => raise (TypeError "this.s3.deleteObject is not a function")
      end
  | _ => raise (TypeError "Cannot read properties of null (reading 'deleteObject')")
  end.

(** ** Observations *)

(** What holds of the detector while the stream [firstChunk :: rest]
    flows: once the handler has started, the chunks between the first one
    and those that reach [outStream] are lost. *)
Definition detecting (mime : string) (firstChunk : chunk) (rest : stream)
    (d : detector) : Prop :=
  match state d with
  | Listening => source d = firstChunk :: rest
  | Suspended c n => c = firstChunk ∧ (n ≤ 2)%nat ∧ ∃ k, source d = drop k rest
  | Replaying m out =>
      m = mime ∧ ∃ k j, out = firstChunk :: take j (drop k rest)
                        ∧ source d = drop j (drop k rest)
  end.

(** The number of times the [cb] of [_handleFile] was called. *)
Definition callbacks (evs : list event) : nat :=
  length (omap (fun ev => if ev is Callback result then Some result else None) evs).

(** The transform factories called, in order. *)
Definition produced (evs : list event) : list (option string) :=
  omap (fun ev => if ev is Produced field then Some field else None) evs.

(** The total that a notification reports: [ev.total], when it is truthy. *)
Definition reported_total (ev : ProgressEvent) : option Z :=
  match total ev with
  | Some t => if (t =? 0)%Z then None else Some t
  | None => None
  end.

(** The total of the last notification that reports one, [0] without. *)
Definition last_total (notifications : list ProgressEvent) : Z :=
  default 0%Z (last (omap reported_total notifications)).

(** ** What the constructor accepts *)

Definition function_or_string {O F} (v : val O F) : bool :=
  match typeof v with TFunction | TString => true | _ => false end.

Definition function_or_undefined {O F} (v : val O F) : bool :=
  match typeof v with TFunction | TUndefined => true | _ => false end.

Definition function_string_or_undefined {O F} (v : val O F) : bool :=
  match typeof v with TFunction | TString | TUndefined => true | _ => false end.

Definition is_object {O F} (v : val O F) : bool :=
  match typeof v with TObject => true | _ => false end.

(** The per-attribute options have a type the constructor takes. *)
Definition attributes_well_typed (opts : Opts.t) : bool :=
  function_or_string (Opts.bucket opts)
  && function_or_undefined (Opts.key opts)
  && function_string_or_undefined (Opts.acl opts)
  && function_or_undefined (Opts.contentType opts)
  && function_or_undefined (Opts.metadata opts)
  && function_string_or_undefined (Opts.cacheControl opts)
  && function_string_or_undefined (Opts.contentDisposition opts)
  && function_string_or_undefined (Opts.storageClass opts)
  && function_string_or_undefined (Opts.serverSideEncryption opts)
  && function_string_or_undefined (Opts.sseKmsKeyId opts).

Definition well_typed (opts : Opts.t) : bool :=
  is_object (Opts.s3 opts) && attributes_well_typed opts.

(** ** Fixtures *)

(** [createMockS3] of [test/util/mock-s3.js]: [send] reads the body to its
    end, notifies [{ total: body.length }] and succeeds.  The mock has no
    [deleteObject]. *)
Definition createMockS3 : S3.t := {|
  S3.upload := Some (fun opts =>
    ([ {| loaded := None;
          total := Some (Z.of_nat (length (bytes (Params.Body opts)))) |} ],
     inr {| SendData.Location := VStr "mock-location";
            SendData.ETag := VStr "mock-etag";
            SendData.VersionId := VUndefined |}));
  S3.deleteObject := None
|}.

(** A client that deletes: it answers with the key it was given. *)
Definition deletingS3 : S3.t := {|
  S3.upload := None;
  S3.deleteObject := Some (fun params => inr (DeleteParams.Key params))
|}.

(** The options of the tests: [{ s3: s3, bucket: 'test' }]. *)
Definition test_opts (s3 : val S3.t unit) : Opts.t := {|
  Opts.s3 := s3;
  Opts.bucket := VStr "test";
  Opts.key := VUndefined;
  Opts.acl := VUndefined;
  Opts.contentType := VUndefined;
  Opts.metadata := VUndefined;
  Opts.cacheControl := VUndefined;
  Opts.contentDisposition := VUndefined;
  Opts.storageClass := VUndefined;
  Opts.serverSideEncryption := VUndefined;
  Opts.sseKmsKeyId := VUndefined;
  Opts.throwMimeTypeConflictErrors := VUndefined;
  Opts.transforms := VUndefined
|}.

(** The options of the test ['string key'], a constant key, together with
    a client, so that the check of the key is reached. *)
Definition string_key_opts : Opts.t := {|
  Opts.s3 := VObj createMockS3;
  Opts.bucket := VStr "string";
  Opts.key := VStr "string";
  Opts.acl := VUndefined;
  Opts.contentType := VUndefined;
  Opts.metadata := VUndefined;
  Opts.cacheControl := VUndefined;
  Opts.contentDisposition := VUndefined;
  Opts.storageClass := VUndefined;
  Opts.serverSideEncryption := VUndefined;
  Opts.sseKmsKeyId := VUndefined;
  Opts.throwMimeTypeConflictErrors := VUndefined;
  Opts.transforms := VFun (fun _ => PassThrough)
|}.

(** An entropy source for the examples. *)
Definition zeroBytes (n : nat) : error + list Byte.byte := inr (replicate n Byte.x00).

Definition no_request : Req := {| headers := ∅ |}.

(** The eight bytes that open a PNG file, and a detector that knows them. *)
Definition png_signature : chunk :=
  [Byte.x89; Byte.x50; Byte.x4e; Byte.x47; Byte.x0d; Byte.x0a; Byte.x1a; Byte.x0a].

Fixpoint is_prefix (sig c : chunk) : bool :=
  match sig, c with
  | [], _ => true
  | s :: sig, b :: c => Byte.eqb s b && is_prefix sig c
  | _ :: _, [] => false
  end.

Definition png_detector (c : chunk) : option FileType.t :=
  if is_prefix png_signature c
  then Some {| FileType.ext := "png"; FileType.mime := "image/png" |}
  else None.

(** The bytes of ["<svg"], and a detector that looks for them. *)
Definition svg_open : chunk := [Byte.x3c; Byte.x73; Byte.x76; Byte.x67].

Definition svg_detector (c : chunk) : bool := is_prefix svg_open c.

(** The strategy exported as [AUTO_CONTENT_TYPE], over the two sample
    detectors. *)
Definition sample_autoContentType : ct_strategy :=
  autoContentType png_detector svg_detector.

(** [{ s3, bucket: 'test', contentType: AUTO_CONTENT_TYPE,
       throwMimeTypeConflictErrors, transforms }] *)
Definition auto_opts (s3 : val S3.t unit) (enforce : val unit unit)
    (transforms : val (gmap string factory) factory) : Opts.t := {|
  Opts.s3 := s3;
  Opts.bucket := VStr "test";
  Opts.key := VUndefined;
  Opts.acl := VUndefined;
  Opts.contentType := VFun sample_autoContentType;
  Opts.metadata := VUndefined;
  Opts.cacheControl := VUndefined;
  Opts.contentDisposition := VUndefined;
  Opts.storageClass := VUndefined;
  Opts.serverSideEncryption := VUndefined;
  Opts.sseKmsKeyId := VUndefined;
  Opts.throwMimeTypeConflictErrors := enforce;
  Opts.transforms := transforms
|}.

(** A PNG uploaded as [actually-a-png.pdf] in the field [image]; its
    content arrives in two chunks. *)
Definition png_named_pdf : File.t := {|
  File.fieldname := "image";
  File.originalname := "actually-a-png.pdf";
  File.mimetype := "application/pdf";
  File.stream := [png_signature; [Byte.x49; Byte.x48; Byte.x44; Byte.x52]]
|}.

(** The same content under its own name. *)
Definition png_file : File.t := {|
  File.fieldname := "image";
  File.originalname := "ffffff.png";
  File.mimetype := "image/png";
  File.stream := [png_signature; [Byte.x49; Byte.x48; Byte.x44; Byte.x52]]
|}.

(** An SVG document and a text file, each in one chunk. *)
Definition svg_file : File.t := {|
  File.fieldname := "image";
  File.originalname := "test.svg";
  File.mimetype := "image/svg+xml";
  File.stream := [(svg_open ++ [Byte.x2f; Byte.x3e])%list]
|}.

Definition text_file : File.t := {|
  File.fieldname := "file";
  File.originalname := "test.txt";
  File.mimetype := "text/plain";
  File.stream := [[Byte.x74; Byte.x65; Byte.x73; Byte.x74; Byte.x0a]]
|}.

(** What calling a property yields that neither the transforms nor their
    prototypes have: [undefined] is not a function. *)
Definition not_a_function : inherited :=
  Throws (TypeError "this.transforms[file.fieldname] is not a function").

(** The strategies answer in the order of the array and the promises
    settle before the stream emits again.  (In this and the following
    environments the field name of the file is not the name of an
    inherited property: the files are uploaded as [image] or [file].) *)
Definition in_order : Env :=
  {| completion := seq 0 9; ticks := []; builtin := not_a_function |}.

(** The stream emits its second chunk before the handler of the first has
    resumed: both chunks were buffered when the listener was attached. *)
Definition second_chunk_early : Env :=
  {| completion := seq 0 9; ticks := [Emit; Emit; Settle; Settle];
     builtin := not_a_function |}.

(** The adapter that the constructor makes of [auto_opts]. *)
Definition auto_storage (s3 : val S3.t unit) (enforce : val unit unit)
    (transforms : val (gmap string factory) factory) : Storage.t := {|
  Storage.s3 := s3;
  Storage.getBucket := staticValue (VStr "test");
  Storage.getKey := defaultKey zeroBytes;
  Storage.getAcl := defaultAcl;
  Storage.getContentType := sample_autoContentType;
  Storage.getMetadata := defaultMetadata;
  Storage.getCacheControl := defaultCacheControl;
  Storage.getContentDisposition := defaultContentDisposition;
  Storage.getStorageClass := defaultStorageClass;
  Storage.getSSE := defaultSSE;
  Storage.getSSEKMS := defaultSSEKMS;
  Storage.throwMimeTypeConflictErrors := enforce;
  Storage.transforms := transforms
|}.

(** A client whose upload notifies four times, the second time without
    total and the last time with a total of [0], and then succeeds. *)
Definition notifyingS3 : S3.t := {|
  S3.upload := Some (fun opts =>
    ([ {| loaded := Some 5%Z; total := Some 5%Z |};
       {| loaded := Some 7%Z; total := None |};
       {| loaded := Some 3%Z; total := Some 3%Z |};
       {| loaded := Some 3%Z; total := Some 0%Z |} ],
     inr {| SendData.Location := VStr "location";
            SendData.ETag := VStr "etag";
            SendData.VersionId := VStr "1" |}));
  S3.deleteObject := None
|}.

(** What the middleware hands back for the removal of an upload. *)
Definition stored_file : Stored.t :=
  {| Stored.bucket := VStr "test"; Stored.key := VStr "0123" |}.







(** ** Further observations and fixtures *)

(** The characters of a lower-case hexadecimal string. *)
Definition is_hex_digit (c : ascii) : bool :=
  existsb (Ascii.eqb c) (list_ascii_of_string "0123456789abcdef").

(** The value of a hexadecimal digit, and [Buffer.from(s, 'hex')], the
    reading of a hexadecimal string as bytes. *)
Definition hex_value (c : ascii) : option N :=
  (fix find (n : nat) (digits : list ascii) : option N :=
     match digits with
     | [] => None
     | d :: digits => if Ascii.eqb c d then Some (N.of_nat n) else find (S n) digits
     end) 0 (list_ascii_of_string "0123456789abcdef").

Definition byte_of_hex (high low : ascii) : option Byte.byte :=
  match hex_value high, hex_value low with
  | Some h, Some l => Byte.of_N (16 * h + l)
  | _, _ => None
  end.

Fixpoint of_hex (s : string) : option (list Byte.byte) :=
  match s with
  | EmptyString => Some []
  | String high (String low s) =>
      match byte_of_hex high low, of_hex s with
      | Some b, Some raw => Some (b :: raw)
      | _, _ => None
      end
  | String _ EmptyString => None
  end.

(** The parameters of the uploads in a trace. *)
Definition uploads (evs : list event) : list Params.t :=
  omap (fun ev => if ev is Upload params then Some params else None) evs.

(** The adapter with other transforms. *)
Definition with_transforms (this : Storage.t)
    (transforms : val (gmap string factory) factory) : Storage.t := {|
  Storage.s3 := Storage.s3 this;
  Storage.getBucket := Storage.getBucket this;
  Storage.getKey := Storage.getKey this;
  Storage.getAcl := Storage.getAcl this;
  Storage.getContentType := Storage.getContentType this;
  Storage.getMetadata := Storage.getMetadata this;
  Storage.getCacheControl := Storage.getCacheControl this;
  Storage.getContentDisposition := Storage.getContentDisposition this;
  Storage.getStorageClass := Storage.getStorageClass this;
  Storage.getSSE := Storage.getSSE this;
  Storage.getSSEKMS := Storage.getSSEKMS this;
  Storage.throwMimeTypeConflictErrors := Storage.throwMimeTypeConflictErrors this;
  Storage.transforms := transforms
|}.

(** [{ s3, bucket, throwMimeTypeConflictErrors, transforms }], the
    other options left out, and the adapter that the constructor makes
    of them. *)
Definition bucket_opts (s3 : val S3.t unit) (bucket : string) (enforce : val unit unit)
    (transforms : val (gmap string factory) factory) : Opts.t := {|
  Opts.s3 := s3;
  Opts.bucket := VStr bucket;
  Opts.key := VUndefined;
  Opts.acl := VUndefined;
  Opts.contentType := VUndefined;
  Opts.metadata := VUndefined;
  Opts.cacheControl := VUndefined;
  Opts.contentDisposition := VUndefined;
  Opts.storageClass := VUndefined;
  Opts.serverSideEncryption := VUndefined;
  Opts.sseKmsKeyId := VUndefined;
  Opts.throwMimeTypeConflictErrors := enforce;
  Opts.transforms := transforms
|}.

Definition bucket_storage (randomBytes : nat -> error + list Byte.byte)
    (s3 : val S3.t unit) (bucket : string) (enforce : val unit unit)
    (transforms : val (gmap string factory) factory) : Storage.t := {|
  Storage.s3 := s3;
  Storage.getBucket := staticValue (VStr bucket);
  Storage.getKey := defaultKey randomBytes;
  Storage.getAcl := defaultAcl;
  Storage.getContentType := defaultContentType;
  Storage.getMetadata := defaultMetadata;
  Storage.getCacheControl := defaultCacheControl;
  Storage.getContentDisposition := defaultContentDisposition;
  Storage.getStorageClass := defaultStorageClass;
  Storage.getSSE := defaultSSE;
  Storage.getSSEKMS := defaultSSEKMS;
  Storage.throwMimeTypeConflictErrors := enforce;
  Storage.transforms := transforms
|}.

(** A file without content. *)
Definition empty_file : File.t := {|
  File.fieldname := "file";
  File.originalname := "empty.txt";
  File.mimetype := "text/plain";
  File.stream := []
|}.

(** A client whose upload fails. *)
Definition refusingS3 : S3.t := {|
  S3.upload := Some (fun opts => ([], inl (Error "AccessDenied")));
  S3.deleteObject := None
|}.

(** The key strategy has not answered. *)
Definition key_missing : Env :=
  {| completion := [0; 2; 3; 4; 5; 6; 7; 8]; ticks := [];
     builtin := not_a_function |}.

(** The strategies answer in the reverse order. *)
Definition reversed : Env :=
  {| completion := rev (seq 0 9); ticks := []; builtin := not_a_function |}.

(** * Properties *)

(** ** Construction *)

Lemma function_or_default_spec {F} (opt : val unit F) (default : F) (msg : string) :
  match function_or_default opt default msg with
  | inr _ => function_or_undefined opt = true
  | inl err => function_or_undefined opt = false ∧ err = TypeError msg
  end.
Proof. by destruct opt. Qed.

Lemma function_string_or_default_spec (opt : val unit strategy) default msg :
  match function_string_or_default opt default msg with
  | inr _ => function_string_or_undefined opt = true
  | inl err => function_string_or_undefined opt = false ∧ err = TypeError msg
  end.
Proof. by destruct opt. Qed.

(** A check of the constructor has thrown: nothing is constructed. *)
Ltac rejected :=
  rewrite ?andb_false_r; simpl;
  split;
  [ split; [ intros [? [=]] | intros [=] ]
  | intros ? [= <-]; solve [ by left | by right ] ].

(** Case analysis on the next check of the constructor. *)
Ltac next_check :=
  match goal with
  | |- context [function_or_default ?opt ?d ?m] =>
      let H := fresh in
      pose proof (function_or_default_spec opt d m) as H;
      destruct (function_or_default opt d m);
      [ destruct H as [-> ->]; rejected | rewrite H; clear H ]
  | |- context [function_string_or_default ?opt ?d ?m] =>
      let H := fresh in
      pose proof (function_string_or_default_spec opt d m) as H;
      destruct (function_string_or_default opt d m);
      [ destruct H as [-> ->]; rejected | rewrite H; clear H ]
  end.

Lemma S3Storage_spec randomBytes (opts : Opts.t) :
  ((∃ this, S3Storage randomBytes opts = inr this) ↔ well_typed opts = true)
  ∧ (∀ err, S3Storage randomBytes opts = inl err →
       is_TypeError err = true
       ∨ (Opts.bucket opts = VUndefined ∧ err = Error "bucket is required")).
Proof.
  unfold S3Storage, well_typed, attributes_well_typed, throw.
  destruct (Opts.s3 opts); simpl; try rejected;
    (destruct (Opts.bucket opts); simpl; try rejected);
    repeat next_check; simpl;
    (split; [ split; eauto | intros ? [=] ]).
Qed.

(** The constructor copies [s3], the enforcement flag and the transforms. *)
Lemma S3Storage_copies randomBytes (opts : Opts.t) (this : Storage.t) :
  S3Storage randomBytes opts = inr this →
  Storage.s3 this = Opts.s3 opts
  ∧ Storage.throwMimeTypeConflictErrors this = Opts.throwMimeTypeConflictErrors opts
  ∧ Storage.transforms this = Opts.transforms opts.
Proof.
  unfold S3Storage, throw.
  destruct (Opts.s3 opts); simpl; try done;
    (destruct (Opts.bucket opts); simpl; try done);
    repeat match goal with
      | |- context [function_or_default ?opt ?d ?m] =>
          destruct (function_or_default opt d m); [ done | ]
      | |- context [function_string_or_default ?opt ?d ?m] =>
          destruct (function_string_or_default opt d m); [ done | ]
      end;
    by intros [= <-].
Qed.

(** C3, as stated, fails: [key] is a per-attribute option and a string is
    a constant value, and yet the constructor throws the [TypeError] of
    line 101. *)
Lemma S3Storage_rejects_constant_key :
  S3Storage zeroBytes string_key_opts
  = inl (TypeError "Expected opts.key to be undefined or function").
Proof. reflexivity. Qed.

(** C3 (amended).  Construction succeeds exactly on the options whose [s3]
    has [typeof] ['object'], whose bucket is a function or a string, whose
    key, contentType and metadata are a function or undefined, and whose
    acl, cacheControl, contentDisposition, storageClass,
    serverSideEncryption and sseKmsKeyId are a function, a string or
    undefined.  On all other options it throws, before any upload: a
    [TypeError], or [Error('bucket is required')] when the bucket is
    undefined. *)
Theorem S3Storage_accepts_iff_well_typed randomBytes (opts : Opts.t) :
  (well_typed opts = true → ∃ this, S3Storage randomBytes opts = inr this)
  ∧ (well_typed opts = false →
       ∃ err, S3Storage randomBytes opts = inl err
         ∧ (is_TypeError err = true
            ∨ (Opts.bucket opts = VUndefined ∧ err = Error "bucket is required"))).
Proof.
  destruct (S3Storage_spec randomBytes opts) as [Hiff Herr]. split.
  - apply Hiff.
  - intros Hno. destruct (S3Storage randomBytes opts) as [err|this] eqn:E.
    + eauto.
    + assert (well_typed opts = true) by (apply Hiff; eauto). congruence.
Qed.

Lemma S3Storage_accepts_iff_well_typed_witness :
  (∃ this, S3Storage zeroBytes (test_opts (VObj createMockS3)) = inr this)
  ∧ (∃ err, S3Storage zeroBytes string_key_opts = inl err
       ∧ (is_TypeError err = true
          ∨ (Opts.bucket string_key_opts = VUndefined
             ∧ err = Error "bucket is required"))).
Proof.
  split.
  - apply (S3Storage_accepts_iff_well_typed zeroBytes (test_opts (VObj createMockS3))).
    reflexivity.
  - apply (S3Storage_accepts_iff_well_typed zeroBytes string_key_opts).
    reflexivity.
Defined.

(** C10.  [typeof null] is ['object'], so options whose [s3] is [null] pass
    the first check and (the attributes being well typed) give an adapter
    that holds [null]; an [s3] of any other type than object makes the
    constructor throw the [TypeError] of line 88. *)
Theorem S3Storage_null_s3 randomBytes (opts : Opts.t) :
  (Opts.s3 opts = VNull → attributes_well_typed opts = true →
     ∃ this, S3Storage randomBytes opts = inr this ∧ Storage.s3 this = VNull)
  ∧ (typeof (Opts.s3 opts) ≠ TObject →
     S3Storage randomBytes opts = inl (TypeError "Expected opts.s3 to be object")).
Proof.
  split.
  - intros Hnull Hattrs.
    destruct (proj1 (S3Storage_spec randomBytes opts)) as [_ [this Hthis]].
    { unfold well_typed. by rewrite Hnull, Hattrs. }
    exists this. split; [ done | ].
    apply S3Storage_copies in Hthis as [-> _]. done.
  - intros Hty. unfold S3Storage. by destruct (Opts.s3 opts).
Qed.

Lemma S3Storage_null_s3_witness :
  (∃ this, S3Storage zeroBytes (test_opts VNull) = inr this ∧ Storage.s3 this = VNull)
  ∧ S3Storage zeroBytes (test_opts (VStr "s3"))
    = inl (TypeError "Expected opts.s3 to be object").
Proof.
  split.
  - by apply (S3Storage_null_s3 zeroBytes (test_opts VNull)).
  - by apply (S3Storage_null_s3 zeroBytes (test_opts (VStr "s3"))).
Defined.

(** ** The content-type detector *)

Lemma drop_cons_inv {A} (n : nat) (l : list A) (x : A) (s : list A) :
  drop n l = x :: s → l !! n = Some x ∧ drop (S n) l = s.
Proof.
  revert l. induction n as [|n IH]; intros [|y l]; simpl; try done.
  - intros [= -> ->]. split; [ done | by rewrite drop_0 ].
  - intros H. by apply IH.
Qed.

Section DetectorProperties.

Variable fileTypeFromBuffer : chunk -> option FileType.t.
Variable isSvg : chunk -> bool.
Variable firstChunk : chunk.
Variable rest : stream.

Local Abbreviation mime := (mime_of fileTypeFromBuffer isSvg firstChunk).
Local Abbreviation detecting := (detecting mime firstChunk rest).

Lemma detecting_step (d : detector) (t : tick) :
  detecting d → detecting (step fileTypeFromBuffer isSvg d t).
Proof.
  destruct d as [src [|c n|m out]], t; unfold detecting; simpl.
  - intros ->. simpl. split_and!; [ done | lia | by exists 0 ].
  - done.
  - intros (-> & Hn & k & ->). destruct (drop k rest) as [|x s] eqn:E; simpl.
    + split_and!; [ done | done | exists k; by rewrite E ].
    + apply drop_cons_inv in E as [_ E].
      split_and!; [ done | done | by exists (S k) ].
  - intros (-> & Hn & k & ->). destruct n as [|[|n]]; simpl.
    + split; [ done | by exists k, 0 ].
    + split; [ done | by exists k, 0 ].
    + split_and!; [ done | lia | by exists k ].
  - intros (-> & k & j & -> & ->).
    destruct (drop j (drop k rest)) as [|x s] eqn:E; simpl.
    + split; [ done | exists k, j; by rewrite E ].
    + apply drop_cons_inv in E as [Hx E].
      split; [ done | exists k, (S j) ]. split; [ | done ].
      by rewrite (take_S_r _ _ _ Hx).
  - done.
Qed.

Lemma detecting_run (ticks : list tick) (d : detector) :
  detecting d → detecting (foldl (step fileTypeFromBuffer isSvg) d ticks).
Proof.
  revert d. induction ticks as [|t ticks IH]; simpl; [ done | ].
  intros d Hd. by apply IH, detecting_step.
Qed.

Lemma detecting_finish (d : detector) :
  detecting d →
  ∃ k, state (finish fileTypeFromBuffer isSvg d)
       = Replaying mime (firstChunk :: drop k rest).
Proof.
  destruct d as [src [|c n|m out]]; unfold detecting, finish; simpl.
  - intros ->. simpl. by exists 0.
  - intros (-> & Hn & k & ->). exists k.
    destruct n as [|[|[|n]]]; simpl; [ done | done | done | lia ].
  - intros (-> & k & j & -> & ->). exists k. simpl.
    by rewrite take_drop.
Qed.

(** The detector answers with the mime type of the first chunk and with
    a stream that replays the first chunk and then the rest from some
    chunk on. *)
Lemma autoContentType_resolves (req : Req) (file : File.t) (ticks : list tick) :
  File.stream file = firstChunk :: rest →
  ∃ k, autoContentType fileTypeFromBuffer isSvg req file ticks
       = CtResolved mime (Some (firstChunk :: drop k rest)).
Proof.
  intros Hstream. unfold autoContentType. rewrite Hstream.
  destruct (detecting_finish
    (foldl (step fileTypeFromBuffer isSvg)
       {| source := firstChunk :: rest; state := Listening |} ticks)) as [k Hk].
  { by apply detecting_run. }
  exists k. by rewrite Hk.
Qed.

End DetectorProperties.

(** C4.  For every stream with a first chunk and however the event loop
    runs, the detector resolves: to the mime type that the signature
    detection finds in the first chunk; else, when the chunk is an SVG
    document, to [image/svg+xml]; else to [application/octet-stream]. *)
Theorem autoContentType_classifies
    (fileTypeFromBuffer : chunk -> option FileType.t) (isSvg : chunk -> bool)
    (req : Req) (file : File.t) (ticks : list tick)
    (firstChunk : chunk) (rest : stream) :
  File.stream file = firstChunk :: rest →
  ∃ mime outStream,
    autoContentType fileTypeFromBuffer isSvg req file ticks
    = CtResolved mime (Some outStream)
    ∧ (∀ type, fileTypeFromBuffer firstChunk = Some type → mime = FileType.mime type)
    ∧ (fileTypeFromBuffer firstChunk = None → isSvg firstChunk = true →
       mime = "image/svg+xml")
    ∧ (fileTypeFromBuffer firstChunk = None → isSvg firstChunk = false →
       mime = "application/octet-stream").
Proof.
  intros Hstream.
  destruct (autoContentType_resolves fileTypeFromBuffer isSvg firstChunk rest
              req file ticks Hstream) as [k Hk].
  eexists _, _. split; [ exact Hk | ]. unfold mime_of. split_and!.
  - by intros type ->.
  - by intros -> ->.
  - by intros -> ->.
Qed.

Lemma autoContentType_classifies_witness :
  (∃ out, sample_autoContentType no_request png_file [Emit; Settle; Emit; Settle]
          = CtResolved "image/png" (Some out))
  ∧ (∃ out, sample_autoContentType no_request svg_file []
            = CtResolved "image/svg+xml" (Some out))
  ∧ (∃ out, sample_autoContentType no_request text_file [Settle; Emit]
            = CtResolved "application/octet-stream" (Some out)).
Proof.
  split_and!.
  - destruct (autoContentType_classifies png_detector svg_detector no_request
                png_file [Emit; Settle; Emit; Settle] _ _ eq_refl)
      as (mime & out & H & Hsig & _).
    exists out. unfold sample_autoContentType. rewrite H. f_equal.
    exact (Hsig _ eq_refl).
  - destruct (autoContentType_classifies png_detector svg_detector no_request
                svg_file [] _ _ eq_refl)
      as (mime & out & H & _ & Hsvg & _).
    exists out. unfold sample_autoContentType. rewrite H. f_equal.
    exact (Hsvg eq_refl eq_refl).
  - destruct (autoContentType_classifies png_detector svg_detector no_request
                text_file [Settle; Emit] _ _ eq_refl)
      as (mime & out & H & _ & _ & Hnone).
    exists out. unfold sample_autoContentType. rewrite H. f_equal.
    exact (Hnone eq_refl eq_refl).
Defined.

(** When the promises settle before the stream emits again, the
    replacement stream is the file's stream, chunk for chunk. *)
Lemma autoContentType_replays_settled
    (fileTypeFromBuffer : chunk -> option FileType.t) (isSvg : chunk -> bool)
    (req : Req) (file : File.t) (firstChunk : chunk) (rest : stream) :
  File.stream file = firstChunk :: rest →
  autoContentType fileTypeFromBuffer isSvg req file []
  = CtResolved (mime_of fileTypeFromBuffer isSvg firstChunk) (Some (File.stream file)).
Proof. intros Hstream. unfold autoContentType. by rewrite Hstream. Qed.

(** Once [pipe] is attached no chunk is lost. *)
Lemma replaying_run
    (fileTypeFromBuffer : chunk -> option FileType.t) (isSvg : chunk -> bool)
    (ticks : list tick) (mime : string) (out src : stream) :
  ∃ out' src',
    foldl (step fileTypeFromBuffer isSvg)
      {| source := src; state := Replaying mime out |} ticks
    = {| source := src'; state := Replaying mime out' |}
    ∧ (out' ++ src')%list = (out ++ src)%list.
Proof.
  revert out src. induction ticks as [|[|] ticks IH]; intros out src; simpl.
  - by eexists _, _.
  - destruct src as [|c src]; unfold emit; simpl.
    + apply IH.
    + destruct (IH (out ++ [c])%list src) as (out' & src' & -> & Heq).
      eexists _, _. split; [ done | ]. by rewrite Heq, <- app_assoc.
  - apply IH.
Qed.

(** The same when the first chunk is emitted and both promises settle
    before the second chunk, whatever the event loop does afterwards. *)
Lemma autoContentType_replays_prompt
    (fileTypeFromBuffer : chunk -> option FileType.t) (isSvg : chunk -> bool)
    (req : Req) (file : File.t) (ticks : list tick)
    (firstChunk : chunk) (rest : stream) :
  File.stream file = firstChunk :: rest →
  ∃ outStream,
    autoContentType fileTypeFromBuffer isSvg req file (Emit :: Settle :: Settle :: ticks)
    = CtResolved (mime_of fileTypeFromBuffer isSvg firstChunk) (Some outStream)
    ∧ bytes outStream = bytes (File.stream file).
Proof.
  intros Hstream. unfold autoContentType. rewrite Hstream. simpl.
  destruct (replaying_run fileTypeFromBuffer isSvg ticks
              (mime_of fileTypeFromBuffer isSvg firstChunk) [firstChunk] rest)
    as (out' & src' & Hrun & Heq).
  unfold emit, settle in *. simpl in *. rewrite Hrun. unfold finish. simpl.
  eexists. split; [ done | ]. by rewrite Heq.
Qed.

(** C1 fails on the code.  [png_file] is uploaded with the detector and
    without transform; the stream emits its second chunk while the handler
    of the first is at its [await]: the body that reaches the collaborator
    has the first chunk only. *)
Theorem autoContentType_loses_chunk_emitted_during_await :
  ∃ this params,
    S3Storage zeroBytes (auto_opts (VObj createMockS3) VUndefined VUndefined) = inr this
    ∧ Upload params ∈ trace (_handleFile this no_request png_file second_chunk_early)
    ∧ bytes (Params.Body params) = png_signature
    ∧ bytes (Params.Body params) ≠ bytes (File.stream png_file).
Proof.
  eexists _, _. split; [ reflexivity | ]. split; [ | split ].
  - apply list_elem_of_lookup_2 with (i := 0). reflexivity.
  - reflexivity.
  - discriminate.
Qed.

(** ** The upload *)

(** Where the transforms have no factory for the file, line 168 reaches
    the inherited property. *)
Lemma resolve_transform_inherited (this : Storage.t) (file : File.t) (env : Env) :
  truthy (Storage.transforms this) = true →
  (∀ f, Storage.transforms this ≠ VFun f) →
  (∀ fields, Storage.transforms this = VObj fields →
             fields !! File.fieldname file = None) →
  resolve_transform this file env = call_inherited env.
Proof.
  intros Hsome Hfun Hfield. unfold resolve_transform. rewrite Hsome. simpl.
  destruct (Storage.transforms this) as [| | | | | | |fields|f] eqn:E; try done.
  - by rewrite (Hfield fields).
  - by destruct (Hfun f).
Qed.

(** The events of [resolve_transform]: at most one factory call, and none
    when it throws. *)
Lemma resolve_transform_cases (this : Storage.t) (file : File.t) (env : Env) :
  (∃ evs transform,
     resolve_transform this file env = (evs, inr transform)
     ∧ (evs = [] ∨ ∃ field, evs = [Produced field]))
  ∨ (∃ err, resolve_transform this file env = ([], inl err)).
Proof.
  assert (Hcall : (∃ transform, call_inherited env = ([], inr transform))
                  ∨ (∃ err, call_inherited env = ([], inl err))).
  { unfold call_inherited, ret, raise. destruct (builtin env); eauto. }
  unfold resolve_transform.
  destruct (negb (truthy (Storage.transforms this))); [ left; by eexists _, _; eauto | ].
  destruct (Storage.transforms this) as [| | | | | | |fields|f].
  1-7: destruct Hcall as [[t ->]|[err ->]]; [ left | right ]; eauto 6.
  - destruct (fields !! File.fieldname file) as [f|].
    + left. eexists _, _. split; [ reflexivity | eauto ].
    + destruct Hcall as [[t ->]|[err ->]]; [ left | right ]; eauto 6.
  - left. eexists _, _. split; [ reflexivity | eauto ].
Qed.

(** The run of [_handleFile] once the attributes are resolved and the
    transform is. *)
Lemma handleFile_resolved (this : Storage.t) req file env opts evs transform :
  collect this req file env = Ok opts →
  resolve_transform this file env = (evs, inr transform) →
  _handleFile this req file env =
    if mismatch this file opts then
      (evs ++ [Callback (inl (mismatch_error file opts))], inr tt)
    else
      match s3_upload this with
      | (_, inl err) => (evs, inl err)
      | (_, inr upload) =>
          let params := upload_params opts (body_stream file opts transform) in
          let sent := upload params in
          (evs ++ [Upload params;
                   Callback (send_callback (foldl on_progress 0%Z sent.1) opts sent.2)],
           inr tt)
      end.
Proof.
  intros Hopts Htransform. unfold _handleFile, bind. rewrite Hopts, Htransform.
  destruct (mismatch this file opts); [ done | ].
  unfold s3_upload.
  destruct (Storage.s3 this) as [| | | | | | |client|]; simpl;
    rewrite ?app_nil_r; try done.
  destruct (S3.upload client) as [upload|]; simpl; rewrite ?app_nil_r; [ | done ].
  by destruct (upload _).
Qed.

(** A transform that cannot be resolved ends the run. *)
Lemma handleFile_transform_throws (this : Storage.t) req file env opts evs err :
  collect this req file env = Ok opts →
  resolve_transform this file env = (evs, inl err) →
  _handleFile this req file env = (evs, inl err).
Proof.
  intros Hopts Htransform. unfold _handleFile, bind. by rewrite Hopts, Htransform.
Qed.

(** The collaborator's [upload] is there to be called. *)
Lemma s3_upload_client (this : Storage.t) client upload :
  Storage.s3 this = VObj client → S3.upload client = Some upload →
  s3_upload this = ([], inr upload).
Proof. intros Hs3 Hupload. unfold s3_upload. by rewrite Hs3, Hupload. Qed.

Lemma mismatch_true (this : Storage.t) (file : File.t) (opts : Attrs.t) :
  mismatch this file opts = true ↔
  truthy (Storage.throwMimeTypeConflictErrors this) = true
  ∧ Attrs.contentType opts ≠ "application/octet-stream"
  ∧ Attrs.contentType opts ≠ File.mimetype file.
Proof.
  unfold mismatch. rewrite !andb_true_iff, !negb_true_iff, !String.eqb_neq.
  intuition congruence.
Qed.

(** C2, as stated, fails: enforcement is on, the detected type is
    [image/png] and the declared one [application/pdf], but the field has
    no entry in the per-field transforms; line 168 throws before line 192
    is reached and no [MIMETYPE_MISMATCH] error is reported. *)
Lemma mismatch_preempted_by_transform :
  let this := auto_storage (VObj createMockS3) (VBool true) (VObj ∅) in
  S3Storage zeroBytes (auto_opts (VObj createMockS3) (VBool true) (VObj ∅)) = inr this
  ∧ (∃ opts,
      collect this no_request png_named_pdf in_order = Ok opts
      ∧ truthy (Storage.throwMimeTypeConflictErrors this) = true
      ∧ Attrs.contentType opts ≠ "application/octet-stream"
      ∧ Attrs.contentType opts ≠ File.mimetype png_named_pdf)
  ∧ _handleFile this no_request png_named_pdf in_order
    = ([], inl (TypeError "this.transforms[file.fieldname] is not a function")).
Proof.
  split; [ reflexivity | ]. split; [ | reflexivity ].
  eexists. split; [ reflexivity | ].
  split_and!; [ reflexivity | discriminate | discriminate ].
Qed.

(** C2 (amended).  Let the attributes be resolved, let line 168 yield the
    transform (or none) without throwing, and let enforcement be on.  If
    the content type is neither [application/octet-stream] nor the declared
    mime type, the callback gets the [MIMETYPE_MISMATCH] error and nothing
    is uploaded.  If it is one of the two, the parameters go to the
    client's [upload] and the callback gets what [send] reports. *)
Theorem mismatch_enforced (this : Storage.t) (req : Req) (file : File.t) (env : Env)
    (opts : Attrs.t) (evs : list event) (transform : option transform) :
  collect this req file env = Ok opts →
  resolve_transform this file env = (evs, inr transform) →
  truthy (Storage.throwMimeTypeConflictErrors this) = true →
  (Attrs.contentType opts ≠ "application/octet-stream" →
   Attrs.contentType opts ≠ File.mimetype file →
   _handleFile this req file env
   = (evs ++ [Callback (inl (Error (mismatch_message
        (Attrs.contentType opts) (File.mimetype file) (File.originalname file))))],
      inr tt))
  ∧ (Attrs.contentType opts = "application/octet-stream"
     ∨ Attrs.contentType opts = File.mimetype file →
     ∀ client upload,
       Storage.s3 this = VObj client → S3.upload client = Some upload →
       let params := upload_params opts (body_stream file opts transform) in
       _handleFile this req file env
       = (evs ++ [Upload params;
                  Callback (send_callback (foldl on_progress 0%Z (upload params).1)
                              opts (upload params).2)],
          inr tt)).
Proof.
  intros Hopts Htransform Hon.
  rewrite (handleFile_resolved _ _ _ _ _ _ _ Hopts Htransform). split.
  - intros Hgeneric Hdeclared.
    by rewrite (proj2 (mismatch_true this file opts)).
  - intros Hsame client upload Hs3 Hupload.
    destruct (mismatch this file opts) eqn:Hmis.
    + apply mismatch_true in Hmis. intuition congruence.
    + by rewrite (s3_upload_client _ _ _ Hs3 Hupload).
Qed.

Lemma mismatch_enforced_witness :
  let this := auto_storage (VObj createMockS3) (VBool true) VUndefined in
  S3Storage zeroBytes (auto_opts (VObj createMockS3) (VBool true) VUndefined) = inr this
  ∧ _handleFile this no_request png_named_pdf in_order
    = ([Callback (inl (Error (mismatch_message
         "image/png" "application/pdf" "actually-a-png.pdf")))], inr tt)
  ∧ ∃ params result,
      _handleFile this no_request text_file in_order
      = ([Upload params; Callback result], inr tt).
Proof.
  intros this. split; [ reflexivity | ]. split.
  - refine (proj1 (mismatch_enforced this no_request png_named_pdf in_order
                     _ [] None eq_refl eq_refl eq_refl) _ _); discriminate.
  - eexists _, _.
    refine (proj2 (mismatch_enforced this no_request text_file in_order
                     _ [] None eq_refl eq_refl eq_refl) _ createMockS3 _ eq_refl eq_refl).
    by left.
Defined.

(** The tracked size after the notifications, from any start. *)
Lemma foldl_on_progress (notifications : list ProgressEvent) (currentSize : Z) :
  foldl on_progress currentSize notifications
  = default currentSize (last (omap reported_total notifications)).
Proof.
  revert currentSize.
  induction notifications as [|ev notifications IH]; intros currentSize; [ done | ].
  simpl. rewrite IH. unfold on_progress, reported_total.
  destruct (total ev) as [t|]; [ | done ].
  destruct (t =? 0)%Z; [ done | ].
  rewrite last_cons. by destruct (last _).
Qed.

(** The callbacks of a run whose trace is known are counted. *)
Ltac counted :=
  unfold callbacks, trace, thrown; simpl;
  split_and!; try done; try lia; try (intros; congruence).

(** C5, as stated, fails: when the transform of the field cannot be
    resolved, [_handleFile] throws and the callback is not called. *)
Lemma transform_failure_skips_callback :
  let this := auto_storage (VObj createMockS3) VUndefined (VObj ∅) in
  let run := _handleFile this no_request png_file in_order in
  S3Storage zeroBytes (auto_opts (VObj createMockS3) VUndefined (VObj ∅)) = inr this
  ∧ thrown run = Some (TypeError "this.transforms[file.fieldname] is not a function")
  ∧ callbacks (trace run) = 0.
Proof. by split_and!. Qed.

(** C5 (amended).  The callback is never called twice.  It is called
    exactly once whenever the attribute resolution has answered and
    [_handleFile] has not thrown: with the resolution error, the mismatch
    error, the error of the upload or the file information.  When
    [_handleFile] throws, the callback is not called. *)
Theorem callback_once (this : Storage.t) (req : Req) (file : File.t) (env : Env) :
  callbacks (trace (_handleFile this req file env)) ≤ 1
  ∧ (collect this req file env ≠ Pending →
     thrown (_handleFile this req file env) = None →
     callbacks (trace (_handleFile this req file env)) = 1)
  ∧ (∀ err, thrown (_handleFile this req file env) = Some err →
     callbacks (trace (_handleFile this req file env)) = 0).
Proof.
  destruct (collect this req file env) as [err|opts|] eqn:Hopts.
  - unfold _handleFile. rewrite Hopts. counted.
  - destruct (resolve_transform_cases this file env)
      as [(evs & t & Ht & Hevs)|(err & Ht)].
    + rewrite (handleFile_resolved _ _ _ _ _ _ _ Hopts Ht).
      destruct Hevs as [->|[field ->]];
        (destruct (mismatch this file opts); [ counted | ]);
        destruct (s3_upload this) as [? [err|upload]]; counted.
    + rewrite (handleFile_transform_throws _ _ _ _ _ _ _ Hopts Ht). counted.
  - unfold _handleFile. rewrite Hopts. counted.
Qed.

Lemma callback_once_witness :
  let this := auto_storage (VObj createMockS3) (VBool true) VUndefined in
  callbacks (trace (_handleFile this no_request png_file in_order)) = 1
  ∧ callbacks (trace (_handleFile this no_request png_named_pdf in_order)) = 1.
Proof.
  intros this. split.
  - by apply (callback_once this no_request png_file in_order).
  - by apply (callback_once this no_request png_named_pdf in_order).
Defined.

(** An event is searched in a trace that is known. *)
Ltac in_trace H :=
  unfold trace in H; simpl in H;
  repeat (apply elem_of_cons in H as [H|H]);
  try (apply elem_of_nil in H as []); try discriminate H.

(** With the transform resolved, the factories called are those of
    [resolve_transform], and what is uploaded has the body of lines
    170-173. *)
Lemma handleFile_body (this : Storage.t) req file env opts evs transform :
  collect this req file env = Ok opts →
  resolve_transform this file env = (evs, inr transform) →
  evs = [] ∨ (∃ field, evs = [Produced field]) →
  produced (trace (_handleFile this req file env)) = produced evs
  ∧ ∀ params, Upload params ∈ trace (_handleFile this req file env) →
      params = upload_params opts (body_stream file opts transform).
Proof.
  intros Hopts Ht Hevs. rewrite (handleFile_resolved _ _ _ _ _ _ _ Hopts Ht).
  destruct (mismatch this file opts);
    [ | destruct (s3_upload this) as [? [err|upload]] ];
    destruct Hevs as [->|[field ->]];
    (split; [ done | intros params Hin; in_trace Hin; by injection Hin as -> ]).
Qed.




(** A file information is reported only at the end of an upload. *)
Lemma handleFile_success (this : Storage.t) req file env info :
  Callback (inr info) ∈ trace (_handleFile this req file env) →
  ∃ opts evs transform client upload result,
    collect this req file env = Ok opts
    ∧ resolve_transform this file env = (evs, inr transform)
    ∧ Storage.s3 this = VObj client
    ∧ S3.upload client = Some upload
    ∧ (let params := upload_params opts (body_stream file opts transform) in
       (upload params).2 = inr result
       ∧ info = file_info (foldl on_progress 0%Z (upload params).1) opts result
       ∧ trace (_handleFile this req file env)
         = evs ++ [Upload params; Callback (inr info)]).
Proof.
  destruct (collect this req file env) as [err|opts|] eqn:Hopts.
  { unfold _handleFile. rewrite Hopts. intros Hin. in_trace Hin. }
  2: { unfold _handleFile. rewrite Hopts. intros Hin. in_trace Hin. }
  intros Hrun.
  assert (∃ evs transform,
            resolve_transform this file env = (evs, inr transform)
            ∧ ∀ ev, ev ∈ evs → ∃ field, ev = Produced field) as (evs & t & Ht & Hevs).
  { destruct (resolve_transform_cases this file env)
      as [(evs & t & Ht & Hevs)|(err & Ht)].
    2: { rewrite (handleFile_transform_throws _ _ _ _ _ _ _ Hopts Ht) in Hrun.
         in_trace Hrun. }
    exists evs, t. split; [ exact Ht | ].
    destruct Hevs as [->|[field ->]]; intros ev Hev; in_trace Hev;
      subst ev; eauto. }
  revert Hrun. rewrite (handleFile_resolved _ _ _ _ _ _ _ Hopts Ht).
  destruct (mismatch this file opts).
  { unfold trace; simpl. rewrite elem_of_app, list_elem_of_singleton.
    intros [Hin|Hin]; [ by destruct (Hevs _ Hin) | discriminate ]. }
  unfold s3_upload.
  destruct (Storage.s3 this) as [| | | | | | |client|] eqn:Hs3; simpl.
  all: try (intros Hin; by destruct (Hevs _ Hin)).
  destruct (S3.upload client) as [upload|] eqn:Hupload; simpl.
  2: { intros Hin; by destruct (Hevs _ Hin). }
  rewrite elem_of_app, !elem_of_cons, elem_of_nil.
  intros [Hin|[Hin|[Hin|[]]]]; [ by destruct (Hevs _ Hin) | discriminate | ].
  unfold send_callback in *.
  destruct (upload _).2 as [err|result] eqn:Hsent; [ discriminate | ].
  injection Hin as ->.
  by exists opts, evs, t, client, upload, result.
Qed.

(** C8.  Whenever the callback gets a file information, the parameters
    went to the [upload] of the client, and the size reported is the total
    of the last notification of that upload that carried a (truthy) total,
    [0] when none did: the totals are not summed. *)
Theorem size_is_last_total (this : Storage.t) (req : Req) (file : File.t) (env : Env)
    (info : Info.t) :
  Callback (inr info) ∈ trace (_handleFile this req file env) →
  ∃ client upload params,
    Storage.s3 this = VObj client
    ∧ S3.upload client = Some upload
    ∧ Upload params ∈ trace (_handleFile this req file env)
    ∧ Info.size info = last_total (upload params).1.
Proof.
  intros Hin.
  destruct (handleFile_success _ _ _ _ _ Hin)
    as (opts & evs & t & client & upload & result & _ & _ & Hs3 & Hupload & H).
  simpl in H. destruct H as (_ & -> & ->).
  eexists client, upload, _. split_and!; [ done | done | | ].
  - rewrite elem_of_app, elem_of_cons. eauto.
  - simpl. unfold last_total. apply foldl_on_progress.
Qed.

Lemma size_is_last_total_witness :
  let this := auto_storage (VObj notifyingS3) VUndefined VUndefined in
  ∃ info,
    Callback (inr info) ∈ trace (_handleFile this no_request png_file in_order)
    ∧ Info.size info = 3%Z.
Proof.
  intros this. eexists. split.
  - apply list_elem_of_lookup_2 with (i := 1). reflexivity.
  - match goal with
    | |- Info.size ?info = _ =>
        destruct (size_is_last_total this no_request png_file in_order info)
          as (client & upload & params & Hclient & Hupload & _ & ->)
    end.
    + apply list_elem_of_lookup_2 with (i := 1). reflexivity.
    + injection Hclient as <-. injection Hupload as <-. reflexivity.
Defined.

(** ** The removal *)

(** C9.  On an adapter whose client has [deleteObject], a removal makes
    one call of it, with the bucket and the key of the file, and the
    callback gets what the collaborator answers; nothing else is read or
    done. *)
Theorem removeFile_delegates (this : Storage.t) (req : Req) (file : Stored.t)
    (client : S3.t) (deleteObject : DeleteParams.t -> error + value) :
  Storage.s3 this = VObj client →
  S3.deleteObject client = Some deleteObject →
  let params := {| DeleteParams.Bucket := Stored.bucket file;
                   DeleteParams.Key := Stored.key file |} in
  _removeFile this req file
  = ([DeleteObject params; Removed (deleteObject params)], inr tt).
Proof. intros Hs3 Hdelete. unfold _removeFile. by rewrite Hs3, Hdelete. Qed.

Lemma removeFile_delegates_witness :
  _removeFile (auto_storage (VObj deletingS3) VUndefined VUndefined) no_request stored_file
  = ([DeleteObject {| DeleteParams.Bucket := VStr "test"; DeleteParams.Key := VStr "0123" |};
      Removed (inr (VStr "0123"))], inr tt).
Proof.
  exact (removeFile_delegates (auto_storage (VObj deletingS3) VUndefined VUndefined)
           no_request stored_file deletingS3 _ eq_refl eq_refl).
Defined.

(** ** Errors of the attribute strategies *)






(** * Further properties *)

(** ** The default key *)

Lemma is_hex_digit_hex_digit (n : N) : is_hex_digit (hex_digit n) = true.
Proof. unfold hex_digit. repeat (case_match; try reflexivity). Qed.

Lemma byte_of_hex_of_byte (b : Byte.byte) :
  byte_of_hex (hex_digit (Byte.to_N b / 16)) (hex_digit (Byte.to_N b mod 16)) = Some b.
Proof. by destruct b. Qed.

Lemma toString_hex_cons (b : Byte.byte) (raw : list Byte.byte) :
  toString_hex (b :: raw)
  = String (hex_digit (Byte.to_N b / 16))
      (String (hex_digit (Byte.to_N b mod 16)) (toString_hex raw)).
Proof. reflexivity. Qed.

Lemma of_hex_toString_hex (raw : list Byte.byte) : of_hex (toString_hex raw) = Some raw.
Proof.
  induction raw as [|b raw IH]; [ done | ].
  rewrite toString_hex_cons. cbn [of_hex].
  by rewrite byte_of_hex_of_byte, IH.
Qed.

Lemma toString_hex_length (raw : list Byte.byte) :
  String.length (toString_hex raw) = 2 * length raw.
Proof.
  induction raw as [|b raw IH]; [ done | ].
  rewrite toString_hex_cons. cbn [String.length length]. rewrite IH. lia.
Qed.

Lemma toString_hex_digits (raw : list Byte.byte) :
  forallb is_hex_digit (list_ascii_of_string (toString_hex raw)) = true.
Proof.
  induction raw as [|b raw IH]; [ done | ].
  rewrite toString_hex_cons. cbn [list_ascii_of_string forallb].
  by rewrite !is_hex_digit_hex_digit, IH.
Qed.

(** X1.  When [randomBytes] delivers sixteen bytes, the default key is a
    string of thirty-two lower-case hexadecimal digits, and it determines
    the bytes: other bytes give another key. *)
Theorem defaultKey_hex (randomBytes : nat -> error + list Byte.byte)
    (req : Req) (file : File.t) (raw : list Byte.byte) :
  randomBytes 16 = inr raw →
  length raw = 16 →
  ∃ key,
    defaultKey randomBytes req file = Resolved (VStr key)
    ∧ String.length key = 32
    ∧ forallb is_hex_digit (list_ascii_of_string key) = true
    ∧ ∀ raw', toString_hex raw' = key → raw' = raw.
Proof.
  intros Hraw Hlen. exists (toString_hex raw). unfold defaultKey. rewrite Hraw.
  split_and!; [ done | | apply toString_hex_digits | ].
  - rewrite toString_hex_length. lia.
  - intros raw' Heq.
    pose proof (of_hex_toString_hex raw') as Hdecode.
    rewrite Heq, of_hex_toString_hex in Hdecode. congruence.
Qed.

Lemma defaultKey_hex_witness :
  ∃ key,
    defaultKey zeroBytes no_request png_file = Resolved (VStr key)
    ∧ String.length key = 32
    ∧ forallb is_hex_digit (list_ascii_of_string key) = true
    ∧ ∀ raw', toString_hex raw' = key → raw' = replicate 16 Byte.x00.
Proof.
  exact (defaultKey_hex zeroBytes no_request png_file (replicate 16 Byte.x00)
           eq_refl eq_refl).
Defined.

(** ** The strategies of a constructed adapter *)

(** Each strategy of the adapter is what the [switch] of its option
    yields. *)
Lemma S3Storage_strategies randomBytes (opts : Opts.t) (this : Storage.t) :
  S3Storage randomBytes opts = inr this →
  (Opts.bucket opts = VFun (Storage.getBucket this)
   ∨ ∃ s, Opts.bucket opts = VStr s ∧ Storage.getBucket this = staticValue (VStr s))
  ∧ (∃ m, function_or_default (Opts.key opts) (defaultKey randomBytes) m
          = inr (Storage.getKey this))
  ∧ (∃ m, function_string_or_default (Opts.acl opts) defaultAcl m
          = inr (Storage.getAcl this))
  ∧ (∃ m, function_or_default (Opts.contentType opts) defaultContentType m
          = inr (Storage.getContentType this))
  ∧ (∃ m, function_or_default (Opts.metadata opts) defaultMetadata m
          = inr (Storage.getMetadata this))
  ∧ (∃ m, function_string_or_default (Opts.cacheControl opts) defaultCacheControl m
          = inr (Storage.getCacheControl this))
  ∧ (∃ m, function_string_or_default (Opts.contentDisposition opts)
            defaultContentDisposition m
          = inr (Storage.getContentDisposition this))
  ∧ (∃ m, function_string_or_default (Opts.storageClass opts) defaultStorageClass m
          = inr (Storage.getStorageClass this))
  ∧ (∃ m, function_string_or_default (Opts.serverSideEncryption opts) defaultSSE m
          = inr (Storage.getSSE this))
  ∧ (∃ m, function_string_or_default (Opts.sseKmsKeyId opts) defaultSSEKMS m
          = inr (Storage.getSSEKMS this)).
Proof.
  unfold S3Storage, throw.
  destruct (Opts.s3 opts); simpl; try done;
    (destruct (Opts.bucket opts); simpl; try done);
    repeat match goal with
      | |- context [function_or_default ?opt ?d ?m] =>
          let E := fresh "E" in
          destruct (function_or_default opt d m) eqn:E; [ done | ]
      | |- context [function_string_or_default ?opt ?d ?m] =>
          let E := fresh "E" in
          destruct (function_string_or_default opt d m) eqn:E; [ done | ]
      end;
    intros [= <-]; simpl; split_and!; eauto.
Qed.

(** X2.  An option given as a string is a constant: the adapter's strategy
    answers with that string for every request and file.  An option given
    as a function is the adapter's strategy as it is. *)
Theorem S3Storage_given_options randomBytes (opts : Opts.t) (this : Storage.t) :
  S3Storage randomBytes opts = inr this →
  (∀ s req file,
     (Opts.bucket opts = VStr s → Storage.getBucket this req file = Resolved (VStr s))
     ∧ (Opts.acl opts = VStr s → Storage.getAcl this req file = Resolved (VStr s))
     ∧ (Opts.cacheControl opts = VStr s →
        Storage.getCacheControl this req file = Resolved (VStr s))
     ∧ (Opts.contentDisposition opts = VStr s →
        Storage.getContentDisposition this req file = Resolved (VStr s))
     ∧ (Opts.storageClass opts = VStr s →
        Storage.getStorageClass this req file = Resolved (VStr s))
     ∧ (Opts.serverSideEncryption opts = VStr s →
        Storage.getSSE this req file = Resolved (VStr s))
     ∧ (Opts.sseKmsKeyId opts = VStr s →
        Storage.getSSEKMS this req file = Resolved (VStr s)))
  ∧ (∀ f,
     (Opts.bucket opts = VFun f → Storage.getBucket this = f)
     ∧ (Opts.key opts = VFun f → Storage.getKey this = f)
     ∧ (Opts.acl opts = VFun f → Storage.getAcl this = f)
     ∧ (Opts.metadata opts = VFun f → Storage.getMetadata this = f)
     ∧ (Opts.cacheControl opts = VFun f → Storage.getCacheControl this = f)
     ∧ (Opts.contentDisposition opts = VFun f →
        Storage.getContentDisposition this = f)
     ∧ (Opts.storageClass opts = VFun f → Storage.getStorageClass this = f)
     ∧ (Opts.serverSideEncryption opts = VFun f → Storage.getSSE this = f)
     ∧ (Opts.sseKmsKeyId opts = VFun f → Storage.getSSEKMS this = f))
  ∧ (∀ f, Opts.contentType opts = VFun f → Storage.getContentType this = f).
Proof.
  intros Hthis.
  destruct (S3Storage_strategies _ _ _ Hthis)
    as (Hbucket & [? Hkey] & [? Hacl] & [? Hct] & [? Hmeta] & [? Hcc] & [? Hcd]
        & [? Hsc] & [? Hsse] & [? Hkms]).
  split_and!; [ intros s req file | intros f | intros f ]; split_and?.
  all: intros Hopt; rewrite Hopt in *;
    destruct Hbucket as [Hbucket|(s' & Hbucket & Hconstant)];
    simplify_eq/=;
    repeat match goal with
      | H : staticValue _ = _ |- _ => rewrite <- H
      | H : _ = staticValue _ |- _ => rewrite H
      end;
    done.
Qed.

Lemma S3Storage_given_options_witness :
  Storage.getBucket (auto_storage (VObj createMockS3) VUndefined VUndefined)
    no_request png_file = Resolved (VStr "test")
  ∧ Storage.getContentType (auto_storage (VObj createMockS3) VUndefined VUndefined)
    = sample_autoContentType.
Proof.
  destruct (S3Storage_given_options zeroBytes
              (auto_opts (VObj createMockS3) VUndefined VUndefined)
              (auto_storage (VObj createMockS3) VUndefined VUndefined) eq_refl)
    as (Hstr & _ & Hct).
  split.
  - by apply (Hstr "test" no_request png_file).
  - by apply Hct.
Defined.

(** X3.  An option that is left out takes its default: the key is the
    default key, the acl ['private'], the storage class ['STANDARD'], the
    content type ['application/octet-stream'] without replacement stream,
    and metadata, cache control, content disposition, encryption and
    encryption key are [null]. *)
Theorem S3Storage_defaults randomBytes (opts : Opts.t) (this : Storage.t)
    (req : Req) (file : File.t) :
  S3Storage randomBytes opts = inr this →
  (Opts.key opts = VUndefined →
   Storage.getKey this req file = defaultKey randomBytes req file)
  ∧ (Opts.acl opts = VUndefined →
     Storage.getAcl this req file = Resolved (VStr "private"))
  ∧ (Opts.contentType opts = VUndefined →
     ∀ ticks, Storage.getContentType this req file ticks
              = CtResolved "application/octet-stream" None)
  ∧ (Opts.metadata opts = VUndefined → Storage.getMetadata this req file = Resolved VNull)
  ∧ (Opts.cacheControl opts = VUndefined →
     Storage.getCacheControl this req file = Resolved VNull)
  ∧ (Opts.contentDisposition opts = VUndefined →
     Storage.getContentDisposition this req file = Resolved VNull)
  ∧ (Opts.storageClass opts = VUndefined →
     Storage.getStorageClass this req file = Resolved (VStr "STANDARD"))
  ∧ (Opts.serverSideEncryption opts = VUndefined →
     Storage.getSSE this req file = Resolved VNull)
  ∧ (Opts.sseKmsKeyId opts = VUndefined →
     Storage.getSSEKMS this req file = Resolved VNull).
Proof.
  intros Hthis.
  destruct (S3Storage_strategies _ _ _ Hthis)
    as (_ & [? Hkey] & [? Hacl] & [? Hct] & [? Hmeta] & [? Hcc] & [? Hcd]
        & [? Hsc] & [? Hsse] & [? Hkms]).
  split_and!; intros Hopt; rewrite Hopt in *; simplify_eq/=;
    repeat match goal with
      | H : _ = ?strategy |- context [?strategy] => rewrite <- H
      end;
    done.
Qed.

Lemma S3Storage_defaults_witness :
  Storage.getAcl (auto_storage (VObj createMockS3) VUndefined VUndefined)
    no_request png_file = Resolved (VStr "private")
  ∧ Storage.getStorageClass (auto_storage (VObj createMockS3) VUndefined VUndefined)
      no_request png_file = Resolved (VStr "STANDARD").
Proof.
  destruct (S3Storage_defaults zeroBytes
              (auto_opts (VObj createMockS3) VUndefined VUndefined)
              (auto_storage (VObj createMockS3) VUndefined VUndefined)
              no_request png_file eq_refl)
    as (_ & Hacl & _ & _ & _ & _ & Hsc & _).
  split; [ by apply Hacl | by apply Hsc ].
Defined.

(** ** The resolved attributes *)

(** When every answer is a value and as many answers are pending as are
    listed, the loop ends with the value of each listed task at its index. *)
Lemma each_collects (tasks : list outcome) (order : list nat)
    (pending : nat) (results : list value) :
  (∀ j, j ∈ order → ∃ v, tasks !! j = Some (Resolved v)) →
  length order = pending → 0 < pending → length results = length tasks →
  ∃ values,
    each tasks order pending results = Ok values
    ∧ length values = length results
    ∧ ∀ j v, j ∈ order → tasks !! j = Some (Resolved v) → values !! j = Some v.
Proof.
  revert pending results.
  induction order as [|i order IH]; intros pending results Hall Hlen Hpos Hres;
    simpl in *; [ lia | ].
  destruct (Hall i) as [vi Hi]; [ by left | ]. rewrite Hi.
  assert (i < length results) as Hlt.
  { rewrite Hres. by apply lookup_lt_Some in Hi. }
  destruct pending as [|[|pending]]; [ lia | | ].
  - destruct order; [ | simpl in Hlen; lia ].
    eexists. split_and!; [ done | by rewrite length_insert | ].
    intros j v ->%list_elem_of_singleton Hj.
    rewrite list_lookup_insert_eq by done. congruence.
  - destruct (IH (S pending) (<[i:=vi]> results))
      as (values & Heach & Hlength & Hvalues).
    + intros j Hj. apply Hall. by right.
    + lia.
    + lia.
    + by rewrite length_insert.
    + exists values. split_and!; [ done | by rewrite Hlength, length_insert | ].
      intros j v [->|Hj]%elem_of_cons Hv; [ | by apply Hvalues ].
      destruct (decide (i ∈ order)) as [Hin|Hnotin]; [ by apply Hvalues | ].
      clear IH Hvalues. revert Heach.
      assert (<[i:=vi]> results !! i = Some v) as Hset.
      { rewrite list_lookup_insert_eq by done. congruence. }
      revert Hset Hnotin. generalize (<[i:=vi]> results) (S pending).
      clear -tasks. induction order as [|k order IH]; intros results pending; simpl.
      * done.
      * intros Hset Hnotin. apply not_elem_of_cons in Hnotin as [Hne Hnotin].
        destruct (tasks !! k) as [[err|vk]|]; [ done | | by apply IH ].
        destruct pending as [|[|pending]].
        -- apply IH; [ by rewrite list_lookup_insert_ne | done ].
        -- intros [= <-]. by rewrite list_lookup_insert_ne.
        -- apply IH; [ by rewrite list_lookup_insert_ne | done ].
Qed.

(** While fewer answers than pending tasks have come, all of them values,
    the loop waits. *)
Lemma each_waits (tasks : list outcome) (order : list nat)
    (pending : nat) (results : list value) :
  (∀ j, j ∈ order → ∃ v, tasks !! j = Some (Resolved v)) →
  length order < pending →
  each tasks order pending results = Pending.
Proof.
  revert pending results.
  induction order as [|i order IH]; intros pending results Hall Hlen; simpl in *.
  - done.
  - destruct (Hall i) as [vi ->]; [ by left | ].
    destruct pending as [|[|pending]]; [ lia | lia | ].
    apply IH; [ | simpl; lia ]. intros j Hj. apply Hall. by right.
Qed.

(** When every task resolves and each answers once, [parallel] yields the
    values in the order of the tasks. *)
Lemma parallel_resolves (values : list value) (order : list nat) :
  order ≡ₚ seq 0 (length values) →
  parallel (Resolved <$> values) order = Ok values.
Proof.
  intros Hperm. destruct values as [|v values]; [ done | ].
  set (vs := v :: values) in *.
  change (parallel (Resolved <$> vs) order)
    with (each (Resolved <$> vs) order (length (Resolved <$> vs))
            (replicate (length (Resolved <$> vs)) VUndefined)).
  assert (∀ j, j ∈ order ↔ j < length vs) as Hin.
  { intros j. rewrite Hperm, elem_of_seq. lia. }
  destruct (each_collects (Resolved <$> vs) order (length (Resolved <$> vs))
              (replicate (length (Resolved <$> vs)) VUndefined))
    as (found & -> & Hlength & Hfound).
  - intros j Hj%Hin. destruct (lookup_lt_is_Some_2 vs j Hj) as [w Hw].
    exists w. by rewrite list_lookup_fmap, Hw.
  - by rewrite Hperm, length_seq, length_fmap.
  - rewrite length_fmap. simpl. lia.
  - by rewrite length_replicate.
  - f_equal. rewrite length_replicate, length_fmap in Hlength.
    apply list_eq. intros j. destruct (decide (j < length vs)) as [Hj|Hj].
    + destruct (lookup_lt_is_Some_2 vs j Hj) as [w Hw]. rewrite Hw.
      apply Hfound; [ by apply Hin | ]. by rewrite list_lookup_fmap, Hw.
    + rewrite !lookup_ge_None_2; [ done | lia | lia ].
Qed.

(** What [collect] yields when the nine strategies and the content-type
    strategy resolve. *)
Lemma collect_resolves (this : Storage.t) (req : Req) (file : File.t)
    (env : Env) (bucket key acl metadata cacheControl contentDisposition
    storageClass sse sseKms : value) (contentType : string)
    (replacementStream : option stream) :
  completion env ≡ₚ seq 0 9 →
  Storage.getBucket this req file = Resolved bucket →
  Storage.getKey this req file = Resolved key →
  Storage.getAcl this req file = Resolved acl →
  Storage.getMetadata this req file = Resolved metadata →
  Storage.getCacheControl this req file = Resolved cacheControl →
  Storage.getContentDisposition this req file = Resolved contentDisposition →
  Storage.getStorageClass this req file = Resolved storageClass →
  Storage.getSSE this req file = Resolved sse →
  Storage.getSSEKMS this req file = Resolved sseKms →
  Storage.getContentType this req file (ticks env)
  = CtResolved contentType replacementStream →
  collect this req file env = Ok {|
    Attrs.bucket := bucket;
    Attrs.key := key;
    Attrs.acl := acl;
    Attrs.metadata := metadata;
    Attrs.cacheControl := cacheControl;
    Attrs.contentDisposition := contentDisposition;
    Attrs.storageClass := storageClass;
    Attrs.contentType := contentType;
    Attrs.replacementStream := replacementStream;
    Attrs.serverSideEncryption := sse;
    Attrs.sseKmsKeyId := sseKms
  |}.
Proof.
  intros Hperm Hb Hk Ha Hm Hcc Hcd Hsc Hsse Hkms Hct.
  unfold collect, tasks. rewrite Hb, Hk, Ha, Hm, Hcc, Hcd, Hsc, Hsse, Hkms.
  pose proof (parallel_resolves
    [bucket; key; acl; metadata; cacheControl; contentDisposition; storageClass;
     sse; sseKms] (completion env) Hperm) as Hnine.
  cbn [fmap list_fmap] in Hnine. rewrite Hnine.
  by rewrite Hct.
Qed.

(** X4.  When each of the nine strategies answers once and with a value,
    the order in which they answer does not matter: [collect] yields the
    same under any two such orders, and when the content-type strategy
    resolves it yields the attribute set that holds at each place the
    value of the strategy of that place. *)
Theorem collect_order_independent (this : Storage.t) (req : Req) (file : File.t)
    (env env' : Env) :
  completion env ≡ₚ seq 0 9 →
  completion env' ≡ₚ seq 0 9 →
  ticks env = ticks env' →
  (∀ j, j < 9 → ∃ v, tasks this req file !! j = Some (Resolved v)) →
  collect this req file env = collect this req file env'
  ∧ ∀ attrs, collect this req file env = Ok attrs →
      Storage.getBucket this req file = Resolved (Attrs.bucket attrs)
      ∧ Storage.getKey this req file = Resolved (Attrs.key attrs)
      ∧ Storage.getAcl this req file = Resolved (Attrs.acl attrs)
      ∧ Storage.getMetadata this req file = Resolved (Attrs.metadata attrs)
      ∧ Storage.getCacheControl this req file = Resolved (Attrs.cacheControl attrs)
      ∧ Storage.getContentDisposition this req file
        = Resolved (Attrs.contentDisposition attrs)
      ∧ Storage.getStorageClass this req file = Resolved (Attrs.storageClass attrs)
      ∧ Storage.getSSE this req file = Resolved (Attrs.serverSideEncryption attrs)
      ∧ Storage.getSSEKMS this req file = Resolved (Attrs.sseKmsKeyId attrs).
Proof.
  intros Hperm Hperm' Hticks Hall.
  destruct (Hall 0) as [v0 H0]; [ lia | ]. destruct (Hall 1) as [v1 H1]; [ lia | ].
  destruct (Hall 2) as [v2 H2]; [ lia | ]. destruct (Hall 3) as [v3 H3]; [ lia | ].
  destruct (Hall 4) as [v4 H4]; [ lia | ]. destruct (Hall 5) as [v5 H5]; [ lia | ].
  destruct (Hall 6) as [v6 H6]; [ lia | ]. destruct (Hall 7) as [v7 H7]; [ lia | ].
  destruct (Hall 8) as [v8 H8]; [ lia | ].
  unfold tasks in *. simpl in *. simplify_eq.
  unfold collect, tasks. rewrite H0, H1, H2, H3, H4, H5, H6, H7, H8.
  pose proof (parallel_resolves [v0; v1; v2; v3; v4; v5; v6; v7; v8]) as Hnine.
  cbn [fmap list_fmap] in Hnine. rewrite !Hnine by done.
  rewrite Hticks. split; [ done | ].
  intros attrs. destruct (Storage.getContentType _ _ _ _); try done.
  by intros [= <-].
Qed.

Lemma collect_order_independent_witness :
  let this := auto_storage (VObj createMockS3) VUndefined VUndefined in
  collect this no_request png_file reversed
  = collect this no_request png_file in_order.
Proof.
  intros this.
  apply (collect_order_independent this no_request png_file reversed in_order).
  - apply Permutation_sym, Permutation_rev.
  - done.
  - done.
  - intros j Hj. do 9 (destruct j as [|j]; [ by eexists | ]). lia.
Defined.

(** X5.  While fewer than nine strategies have answered, all of them with
    a value, nothing happens: no callback, no upload, no exception.  A
    strategy that never answers stalls the file. *)
Theorem handleFile_waits (this : Storage.t) (req : Req) (file : File.t) (env : Env) :
  (∀ j, j ∈ completion env → ∃ v, tasks this req file !! j = Some (Resolved v)) →
  length (completion env) < 9 →
  _handleFile this req file env = ([], inr tt).
Proof.
  intros Hall Hlen. unfold _handleFile, collect.
  change (parallel (tasks this req file) (completion env))
    with (each (tasks this req file) (completion env) 9 (replicate 9 VUndefined)).
  by rewrite each_waits.
Qed.

Lemma handleFile_waits_witness :
  _handleFile (auto_storage (VObj createMockS3) VUndefined VUndefined)
    no_request png_file key_missing = ([], inr tt).
Proof.
  apply handleFile_waits; [ | simpl; lia ].
  intros j Hj. simpl in Hj.
  repeat (apply elem_of_cons in Hj as [->|Hj]; [ by eexists | ]).
  by apply elem_of_nil in Hj.
Defined.

(** ** More on the content-type detector *)

(** A stream without chunks leaves the detector listening. *)
Lemma detector_idle
    (fileTypeFromBuffer : chunk -> option FileType.t) (isSvg : chunk -> bool)
    (ticks : list tick) :
  foldl (step fileTypeFromBuffer isSvg) {| source := []; state := Listening |} ticks
  = {| source := []; state := Listening |}.
Proof. induction ticks as [|[|] ticks IH]; simpl; done. Qed.

(** Promises that settle before the first chunk concern no handler. *)
Lemma detector_early_settles
    (fileTypeFromBuffer : chunk -> option FileType.t) (isSvg : chunk -> bool)
    (n : nat) (src : stream) :
  foldl (step fileTypeFromBuffer isSvg) {| source := src; state := Listening |}
    (replicate n Settle)
  = {| source := src; state := Listening |}.
Proof. induction n as [|n IH]; simpl; done. Qed.

(** An error of [each] is the error of a task that has answered. *)
Lemma each_error (tasks : list outcome) (order : list nat)
    (pending : nat) (results : list value) (err : error) :
  each tasks order pending results = Err err →
  ∃ i, i ∈ order ∧ tasks !! i = Some (Failed err).
Proof.
  revert pending results.
  induction order as [|i order IH]; intros pending results; simpl; [ done | ].
  destruct (tasks !! i) as [[e|v]|] eqn:Hi.
  - intros [= ->]. exists i. split; [ by left | done ].
  - destruct pending as [|[|pending]]; [ | done | ];
      intros (j & Hj & Hfail)%IH; exists j; (split; [ by right | done ]).
  - intros (j & Hj & Hfail)%IH. exists j. split; [ by right | done ].
Qed.

(** X6.  A file without content is never uploaded under the detector: the
    ['data'] event that the detector waits for does not come.  Either one
    of the nine strategies fails and the callback gets its error, or
    nothing happens at all. *)
Theorem empty_file_never_uploaded
    (fileTypeFromBuffer : chunk -> option FileType.t) (isSvg : chunk -> bool)
    (this : Storage.t) (req : Req) (file : File.t) (env : Env) :
  Storage.getContentType this = autoContentType fileTypeFromBuffer isSvg →
  File.stream file = [] →
  _handleFile this req file env = ([], inr tt)
  ∨ ∃ err i,
      tasks this req file !! i = Some (Failed err)
      ∧ _handleFile this req file env = ([Callback (inl err)], inr tt).
Proof.
  intros Hdetector Hempty. unfold _handleFile, collect.
  destruct (parallel (tasks this req file) (completion env)) as [err|values|] eqn:Hnine.
  - right. apply each_error in Hnine as (i & _ & Hi). by exists err, i.
  - left. rewrite Hdetector. unfold autoContentType.
    by rewrite Hempty, detector_idle.
  - by left.
Qed.

Lemma empty_file_never_uploaded_witness :
  _handleFile (auto_storage (VObj createMockS3) VUndefined VUndefined)
    no_request empty_file second_chunk_early = ([], inr tt).
Proof.
  destruct (empty_file_never_uploaded png_detector svg_detector
              (auto_storage (VObj createMockS3) VUndefined VUndefined)
              no_request empty_file second_chunk_early eq_refl eq_refl)
    as [H|(err & i & Hi & _)]; [ exact H | ].
  exfalso. do 9 (destruct i as [|i]; [ discriminate | ]). discriminate.
Defined.

(** X7.  Whatever the event loop does, the replacement stream of the
    detector is the file's stream with a run of chunks after the first one
    left out: the first chunk is there, nothing is added, repeated or
    reordered.  A file that comes in a single chunk is replayed as it is. *)
Theorem autoContentType_keeps_first_chunk
    (fileTypeFromBuffer : chunk -> option FileType.t) (isSvg : chunk -> bool)
    (req : Req) (file : File.t) (ticks : list tick)
    (firstChunk : chunk) (rest : stream) :
  File.stream file = firstChunk :: rest →
  ∃ mime lost kept,
    File.stream file = firstChunk :: lost ++ kept
    ∧ autoContentType fileTypeFromBuffer isSvg req file ticks
      = CtResolved mime (Some (firstChunk :: kept))
    ∧ length (bytes (firstChunk :: kept)) ≤ length (bytes (File.stream file))
    ∧ (rest = [] → firstChunk :: kept = File.stream file).
Proof.
  intros Hstream.
  destruct (autoContentType_resolves fileTypeFromBuffer isSvg firstChunk rest
              req file ticks Hstream) as [k Hk].
  eexists _, (take k rest), (drop k rest).
  split_and!; [ by rewrite take_drop | exact Hk | | ].
  - rewrite Hstream. rewrite <- (take_drop k rest) at 2.
    unfold bytes. simpl. rewrite concat_app, !length_app. lia.
  - intros ->. by rewrite Hstream, drop_nil.
Qed.

Lemma autoContentType_keeps_first_chunk_witness :
  ∃ mime,
    sample_autoContentType no_request svg_file [Emit; Emit; Settle; Emit; Settle]
    = CtResolved mime (Some (File.stream svg_file)).
Proof.
  destruct (autoContentType_keeps_first_chunk png_detector svg_detector no_request
              svg_file [Emit; Emit; Settle; Emit; Settle] _ [] eq_refl)
    as (mime & lost & kept & _ & H & _ & Hsingle).
  exists mime. unfold sample_autoContentType. rewrite H. by rewrite (Hsingle eq_refl).
Defined.

(** X8.  When the first chunk is emitted and both promises of the handler
    settle before the second chunk is, the replacement stream is the
    file's stream chunk for chunk, whatever the event loop does before
    and afterwards. *)
Theorem autoContentType_replays_when_prompt
    (fileTypeFromBuffer : chunk -> option FileType.t) (isSvg : chunk -> bool)
    (req : Req) (file : File.t) (n : nat) (ticks : list tick)
    (firstChunk : chunk) (rest : stream) :
  File.stream file = firstChunk :: rest →
  autoContentType fileTypeFromBuffer isSvg req file
    (replicate n Settle ++ Emit :: Settle :: Settle :: ticks)
  = CtResolved (mime_of fileTypeFromBuffer isSvg firstChunk) (Some (File.stream file)).
Proof.
  intros Hstream. unfold autoContentType.
  rewrite Hstream, foldl_app, detector_early_settles. simpl.
  destruct (replaying_run fileTypeFromBuffer isSvg ticks
              (mime_of fileTypeFromBuffer isSvg firstChunk) [firstChunk] rest)
    as (out' & src' & Hrun & Heq).
  unfold emit, settle in *. simpl in *. rewrite Hrun. unfold finish. simpl.
  by rewrite Heq.
Qed.

Lemma autoContentType_replays_when_prompt_witness :
  sample_autoContentType no_request png_file [Settle; Emit; Settle; Settle; Emit; Settle]
  = CtResolved "image/png" (Some (File.stream png_file)).
Proof.
  exact (autoContentType_replays_when_prompt png_detector svg_detector no_request
           png_file 1 [Emit; Settle] _ _ eq_refl).
Defined.

(** ** More on the upload *)

(** The content type and the replacement stream of the attribute set are
    those of the content-type strategy. *)
Lemma collect_contentType (this : Storage.t) req file env attrs :
  collect this req file env = Ok attrs →
  Storage.getContentType this req file (ticks env)
  = CtResolved (Attrs.contentType attrs) (Attrs.replacementStream attrs).
Proof.
  unfold collect. destruct (parallel _ _); try done.
  destruct (Storage.getContentType _ _ _ _); try done. by intros [= <-].
Qed.

(** Without mismatch the parameters go to the client. *)
Lemma handleFile_uploads (this : Storage.t) req file env attrs evs transform
    client upload :
  collect this req file env = Ok attrs →
  resolve_transform this file env = (evs, inr transform) →
  mismatch this file attrs = false →
  Storage.s3 this = VObj client → S3.upload client = Some upload →
  _handleFile this req file env
  = (evs ++ [Upload (upload_params attrs (body_stream file attrs transform));
             Callback (send_callback
               (foldl on_progress 0%Z
                  (upload (upload_params attrs (body_stream file attrs transform))).1)
               attrs
               (upload (upload_params attrs (body_stream file attrs transform))).2)],
     inr tt).
Proof.
  intros Hattrs Ht Hmis Hs3 Hupload.
  rewrite (handleFile_resolved _ _ _ _ _ _ _ Hattrs Ht), Hmis.
  by rewrite (s3_upload_client _ _ _ Hs3 Hupload).
Qed.

(** X9.  Enforcement needs a content-type strategy: on an adapter built
    without the [contentType] option every file resolves to
    ['application/octet-stream'], without replacement stream, and is
    uploaded whatever its declared mime type and whatever
    [throwMimeTypeConflictErrors] is. *)
Theorem enforcement_needs_contentType randomBytes (opts : Opts.t) (this : Storage.t)
    (req : Req) (file : File.t) (env : Env) (attrs : Attrs.t)
    (evs : list event) (transform : option transform) (client : S3.t) upload :
  S3Storage randomBytes opts = inr this →
  Opts.contentType opts = VUndefined →
  collect this req file env = Ok attrs →
  resolve_transform this file env = (evs, inr transform) →
  Storage.s3 this = VObj client → S3.upload client = Some upload →
  Attrs.contentType attrs = "application/octet-stream"
  ∧ Attrs.replacementStream attrs = None
  ∧ ∃ result,
      _handleFile this req file env
      = (evs ++ [Upload (upload_params attrs (body_stream file attrs transform));
                 Callback result], inr tt).
Proof.
  intros Hthis Hct Hattrs Ht Hs3 Hupload.
  destruct (S3Storage_strategies _ _ _ Hthis) as (_ & _ & _ & [m Hdefault] & _).
  rewrite Hct in Hdefault. injection Hdefault as Hdefault.
  pose proof (collect_contentType _ _ _ _ _ Hattrs) as Hresolved.
  rewrite <- Hdefault in Hresolved. injection Hresolved as Htype Hrepl.
  split_and!; [ done | done | ]. eexists.
  apply handleFile_uploads with (client := client); try done.
  unfold mismatch. rewrite <- Htype. simpl. by rewrite andb_false_r.
Qed.

Lemma enforcement_needs_contentType_witness :
  ∃ params result,
    _handleFile
      (bucket_storage zeroBytes (VObj createMockS3) "test" (VBool true) VUndefined)
      no_request png_named_pdf in_order
    = ([Upload params; Callback result], inr tt).
Proof.
  destruct (enforcement_needs_contentType zeroBytes
              (bucket_opts (VObj createMockS3) "test" (VBool true) VUndefined)
              (bucket_storage zeroBytes (VObj createMockS3) "test" (VBool true) VUndefined)
              no_request png_named_pdf in_order _ [] None createMockS3 _
              eq_refl eq_refl eq_refl eq_refl eq_refl eq_refl)
    as (_ & _ & result & H).
  eexists _, result. exact H.
Defined.

(** X10.  Without enforcement ([throwMimeTypeConflictErrors] left out,
    [false], [0], [''] or [null]) a file whose content type differs from
    its declared mime type is uploaded like any other. *)
Theorem no_enforcement_uploads (this : Storage.t) (req : Req) (file : File.t) (env : Env)
    (attrs : Attrs.t) (evs : list event) (transform : option transform)
    (client : S3.t) upload :
  truthy (Storage.throwMimeTypeConflictErrors this) = false →
  collect this req file env = Ok attrs →
  resolve_transform this file env = (evs, inr transform) →
  Storage.s3 this = VObj client → S3.upload client = Some upload →
  ∃ result,
    _handleFile this req file env
    = (evs ++ [Upload (upload_params attrs (body_stream file attrs transform));
               Callback result], inr tt).
Proof.
  intros Hoff Hattrs Ht Hs3 Hupload. eexists.
  apply handleFile_uploads with (client := client); try done.
  unfold mismatch. by rewrite Hoff.
Qed.

Lemma no_enforcement_uploads_witness :
  ∃ params result,
    _handleFile (auto_storage (VObj createMockS3) (VNum 0) VUndefined)
      no_request png_named_pdf in_order
    = ([Upload params; Callback result], inr tt)
    ∧ Params.ContentType params = "image/png".
Proof.
  destruct (no_enforcement_uploads
              (auto_storage (VObj createMockS3) (VNum 0) VUndefined)
              no_request png_named_pdf in_order _ [] None createMockS3 _
              eq_refl eq_refl eq_refl eq_refl eq_refl) as (result & H).
  eexists _, result. split; [ exact H | reflexivity ].
Defined.

(** X11.  The file information that the callback gets describes what was
    uploaded: its bucket, key, acl, content type, metadata, storage class
    and encryption are those of the parameters of the upload, and the
    parameters have a content disposition exactly when the reported one is
    truthy. *)
Theorem info_describes_upload (this : Storage.t) (req : Req) (file : File.t) (env : Env)
    (info : Info.t) :
  Callback (inr info) ∈ trace (_handleFile this req file env) →
  ∃ params,
    Upload params ∈ trace (_handleFile this req file env)
    ∧ Info.bucket info = Params.Bucket params
    ∧ Info.key info = Params.Key params
    ∧ Info.acl info = Params.ACL params
    ∧ Info.contentType info = Params.ContentType params
    ∧ Info.metadata info = Params.Metadata params
    ∧ Info.storageClass info = Params.StorageClass params
    ∧ Info.serverSideEncryption info = Params.ServerSideEncryption params
    ∧ Params.ContentDisposition params
      = (if truthy (Info.contentDisposition info)
         then Some (Info.contentDisposition info) else None).
Proof.
  intros Hin.
  destruct (handleFile_success _ _ _ _ _ Hin)
    as (attrs & evs & t & client & upload & result & _ & _ & _ & _ & H).
  simpl in H. destruct H as (_ & -> & ->).
  exists (upload_params attrs (body_stream file attrs t)).
  split; [ | by split_and! ].
  rewrite elem_of_app, elem_of_cons. eauto.
Qed.

Lemma info_describes_upload_witness :
  ∃ info params,
    Callback (inr info) ∈ trace (_handleFile
      (auto_storage (VObj createMockS3) VUndefined VUndefined)
      no_request png_file in_order)
    ∧ Info.key info = Params.Key params
    ∧ Params.ContentDisposition params = None.
Proof.
  eassert (Callback (inr _) ∈ trace (_handleFile
             (auto_storage (VObj createMockS3) VUndefined VUndefined)
             no_request png_file in_order)) as Hin.
  { apply list_elem_of_lookup_2 with (i := 1). reflexivity. }
  destruct (info_describes_upload _ _ _ _ _ Hin)
    as (params & _ & _ & Hkey & _ & _ & _ & _ & _ & Hcd).
  eexists _, params. split_and!; [ exact Hin | exact Hkey | exact Hcd ].
Defined.

(** X12.  When the upload fails, the callback gets the error of [send] as
    it is, after the parameters went to the client; no file information is
    reported. *)
Theorem upload_error_surfaced (this : Storage.t) (req : Req) (file : File.t) (env : Env)
    (attrs : Attrs.t) (evs : list event) (transform : option transform)
    (client : S3.t) upload (err : error) :
  collect this req file env = Ok attrs →
  resolve_transform this file env = (evs, inr transform) →
  mismatch this file attrs = false →
  Storage.s3 this = VObj client → S3.upload client = Some upload →
  (upload (upload_params attrs (body_stream file attrs transform))).2 = inl err →
  _handleFile this req file env
  = (evs ++ [Upload (upload_params attrs (body_stream file attrs transform));
             Callback (inl err)], inr tt).
Proof.
  intros Hattrs Ht Hmis Hs3 Hupload Hsent.
  rewrite (handleFile_uploads _ _ _ _ _ _ _ _ _ Hattrs Ht Hmis Hs3 Hupload).
  by rewrite Hsent.
Qed.

Lemma upload_error_surfaced_witness :
  ∃ params,
    _handleFile (auto_storage (VObj refusingS3) VUndefined VUndefined)
      no_request png_file in_order
    = ([Upload params; Callback (inl (Error "AccessDenied"))], inr tt).
Proof.
  eexists.
  exact (upload_error_surfaced (auto_storage (VObj refusingS3) VUndefined VUndefined)
           no_request png_file in_order _ [] None refusingS3 _ _
           eq_refl eq_refl eq_refl eq_refl eq_refl eq_refl).
Defined.

(** X13.  With the mock client of the tests, the size reported is the
    number of bytes of the body of the upload, also for a body without
    bytes, and location and etag are the mock's. *)
Theorem mock_reports_body_length (this : Storage.t) (req : Req) (file : File.t)
    (env : Env) (info : Info.t) :
  Storage.s3 this = VObj createMockS3 →
  Callback (inr info) ∈ trace (_handleFile this req file env) →
  ∃ params,
    Upload params ∈ trace (_handleFile this req file env)
    ∧ Info.size info = Z.of_nat (length (bytes (Params.Body params)))
    ∧ Info.location info = VStr "mock-location"
    ∧ Info.etag info = VStr "mock-etag"
    ∧ Info.versionId info = VUndefined.
Proof.
  intros Hmock Hin.
  destruct (handleFile_success _ _ _ _ _ Hin)
    as (attrs & evs & t & client & upload & result & _ & _ & Hs3 & Hupload & H).
  rewrite Hmock in Hs3. injection Hs3 as <-.
  simpl in Hupload. injection Hupload as <-.
  simpl in H. destruct H as (Hresult & -> & ->). injection Hresult as <-.
  exists (upload_params attrs (body_stream file attrs t)).
  split; [ rewrite elem_of_app, elem_of_cons; eauto | ].
  split_and!; try done. simpl. unfold on_progress. simpl.
  by destruct (Z.eqb_spec (Z.of_nat (length (bytes (body_stream file attrs t)))) 0).
Qed.

Lemma mock_reports_body_length_witness :
  ∃ info,
    Callback (inr info) ∈ trace (_handleFile
      (auto_storage (VObj createMockS3) VUndefined VUndefined)
      no_request png_file in_order)
    ∧ Info.size info = 12%Z.
Proof.
  eassert (Callback (inr _) ∈ trace (_handleFile
             (auto_storage (VObj createMockS3) VUndefined VUndefined)
             no_request png_file in_order)) as Hin.
  { apply list_elem_of_lookup_2 with (i := 1). reflexivity. }
  eexists. split; [ exact Hin | ].
  destruct (mock_reports_body_length
              (auto_storage (VObj createMockS3) VUndefined VUndefined)
              no_request png_file in_order _ eq_refl Hin)
    as (params & Hup & _). reflexivity.
Defined.

(** ** What construction does not check *)

(** X14.  An adapter built with [s3: null] fails at its first use: a
    removal throws a [TypeError] without calling back, and so does an
    upload once the attributes are resolved, the transform is made and no
    mismatch is found. *)
Theorem null_client_fails_at_use randomBytes (opts : Opts.t) (this : Storage.t) :
  S3Storage randomBytes opts = inr this →
  Opts.s3 opts = VNull →
  (∀ req file, ∃ err,
     _removeFile this req file = ([], inl err) ∧ is_TypeError err = true)
  ∧ (∀ req file env attrs evs transform,
     collect this req file env = Ok attrs →
     resolve_transform this file env = (evs, inr transform) →
     mismatch this file attrs = false →
     ∃ err, _handleFile this req file env = (evs, inl err) ∧ is_TypeError err = true).
Proof.
  intros Hthis Hnull. apply S3Storage_copies in Hthis as (Hs3 & _).
  rewrite Hnull in Hs3. split.
  - intros req file. unfold _removeFile. rewrite Hs3. by eexists.
  - intros req file env attrs evs transform Hattrs Ht Hmis.
    rewrite (handleFile_resolved _ _ _ _ _ _ _ Hattrs Ht), Hmis.
    unfold s3_upload. rewrite Hs3. by eexists.
Qed.

Lemma null_client_fails_at_use_witness :
  let this := bucket_storage zeroBytes VNull "test" VUndefined VUndefined in
  (∃ err, _removeFile this no_request stored_file = ([], inl err)
          ∧ is_TypeError err = true)
  ∧ (∃ err, _handleFile this no_request png_file in_order = ([], inl err)
            ∧ is_TypeError err = true).
Proof.
  intros this.
  destruct (null_client_fails_at_use zeroBytes
              (bucket_opts VNull "test" VUndefined VUndefined) this eq_refl eq_refl)
    as [Hremove Hupload].
  split; [ apply Hremove | ].
  eapply (Hupload no_request png_file in_order); reflexivity.
Defined.

(** X15.  The constructor does not look at [transforms]: options whose
    transforms are a truthy value that is neither a function nor an
    object (a number, a string, [true]) are accepted.  Such a value has no
    factories for line 168 to call.  An upload whose attributes are
    resolved calls the property that the value inherits under the field
    name: where there is none, or the call fails, it throws before anything
    is uploaded or reported; where the call returns a falsy value, the
    source stream is what is uploaded. *)
Theorem transforms_checked_at_upload randomBytes (opts : Opts.t) :
  well_typed opts = true →
  truthy (Opts.transforms opts) = true →
  (∀ f, Opts.transforms opts ≠ VFun f) →
  (∀ fields, Opts.transforms opts ≠ VObj fields) →
  ∃ this,
    S3Storage randomBytes opts = inr this
    ∧ ∀ req file env attrs,
        collect this req file env = Ok attrs →
        produced (trace (_handleFile this req file env)) = []
        ∧ (∀ err, builtin env = Throws err →
             _handleFile this req file env = ([], inl err))
        ∧ (builtin env = Falsy →
             ∀ params, Upload params ∈ trace (_handleFile this req file env) →
               Params.Body params
               = default (File.stream file) (Attrs.replacementStream attrs)).
Proof.
  intros Hok Htruthy Hfun Hobj.
  destruct (proj2 (proj1 (S3Storage_spec randomBytes opts)) Hok) as [this Hthis].
  exists this. split; [ done | ]. intros req file env attrs Hattrs.
  apply S3Storage_copies in Hthis as (_ & _ & Htransforms).
  rewrite <- Htransforms in Htruthy, Hfun, Hobj.
  assert (resolve_transform this file env = call_inherited env) as Ht.
  { apply resolve_transform_inherited; [ done | done | ].
    intros fields Hfields. by destruct (Hobj fields). }
  unfold call_inherited in Ht. destruct (builtin env) as [err| |t].
  - rewrite (handleFile_transform_throws _ _ _ _ _ _ _ Hattrs Ht).
    split_and!; [ done | by intros ? [= <-] | done ].
  - destruct (handleFile_body _ _ _ _ _ _ _ Hattrs Ht) as [-> Hbody]; [ by left | ].
    split_and!; [ done | done | ].
    intros _ params Hin. by rewrite (Hbody _ Hin).
  - destruct (handleFile_body _ _ _ _ _ _ _ Hattrs Ht) as [-> Hbody]; [ by left | ].
    by split_and!.
Qed.

Lemma transforms_checked_at_upload_witness :
  ∃ this,
    S3Storage zeroBytes (bucket_opts (VObj createMockS3) "test" VUndefined (VNum 42))
    = inr this
    ∧ _handleFile this no_request png_file in_order
      = ([], inl (TypeError "this.transforms[file.fieldname] is not a function")).
Proof.
  destruct (transforms_checked_at_upload zeroBytes
              (bucket_opts (VObj createMockS3) "test" VUndefined (VNum 42)))
    as (this & Hthis & Hruns); try done.
  exists this. split; [ done | ].
  pose proof Hthis as Hcopy. simpl in Hcopy. injection Hcopy as <-.
  by eapply Hruns.
Defined.

(** ** Transforms that change nothing *)

(** X16.  A factory of [PassThrough] streams, shared or registered for
    the file's field, changes nothing but the call of the factory: the
    parameters of the upload, the callback and the exception, if any, are
    those of the adapter without transforms. *)
Theorem passthrough_is_transparent (this : Storage.t) (req : Req) (file : File.t)
    (env : Env) (attrs : Attrs.t) :
  truthy (Storage.transforms this) = false →
  collect this req file env = Ok attrs →
  _handleFile (with_transforms this (VFun (fun _ => PassThrough))) req file env
  = (Produced None :: (_handleFile this req file env).1,
     (_handleFile this req file env).2)
  ∧ ∀ fields,
      fields !! File.fieldname file = Some (fun _ => PassThrough) →
      _handleFile (with_transforms this (VObj fields)) req file env
      = (Produced (Some (File.fieldname file)) :: (_handleFile this req file env).1,
         (_handleFile this req file env).2).
Proof.
  intros Hnone Hattrs.
  assert (resolve_transform this file env = ([], inr None)) as Hthis.
  { unfold resolve_transform. by rewrite Hnone. }
  rewrite (handleFile_resolved this _ _ _ _ _ _ Hattrs Hthis).
  split; [ | intros fields Hfield ].
  - rewrite (handleFile_resolved (with_transforms this (VFun (fun _ => PassThrough)))
               req file env attrs [Produced None] (Some PassThrough) Hattrs eq_refl).
    change (mismatch (with_transforms this _) file attrs) with (mismatch this file attrs).
    change (s3_upload (with_transforms this _)) with (s3_upload this).
    destruct (mismatch this file attrs); [ done | ].
    by destruct (s3_upload this) as [? [err|upload]].
  - rewrite (handleFile_resolved (with_transforms this (VObj fields))
               req file env attrs [Produced (Some (File.fieldname file))]
               (Some PassThrough) Hattrs).
    2: { unfold resolve_transform. simpl. by rewrite Hfield. }
    change (mismatch (with_transforms this _) file attrs) with (mismatch this file attrs).
    change (s3_upload (with_transforms this _)) with (s3_upload this).
    destruct (mismatch this file attrs); [ done | ].
    by destruct (s3_upload this) as [? [err|upload]].
Qed.

Lemma passthrough_is_transparent_witness :
  let pass : factory := fun _ => PassThrough in
  let this := auto_storage (VObj createMockS3) VUndefined VUndefined in
  trace (_handleFile (with_transforms this (VObj {[ "image" := pass ]}))
           no_request png_file in_order)
  = Produced (Some "image") :: trace (_handleFile this no_request png_file in_order).
Proof.
  intros pass this.
  destruct (passthrough_is_transparent this no_request png_file in_order _
              eq_refl eq_refl) as [_ Hfield].
  rewrite (Hfield {[ "image" := pass ]}); [ done | ].
  apply (lookup_singleton_eq (M := gmap string)).
Defined.

(** ** The shape of a run *)

(** X17.  A run of [_handleFile] calls at most one transform factory,
    then either does nothing more, or calls back once, or uploads once and
    then calls back once; after an exception nothing follows the factory.
    It never deletes.  A removal deletes once and passes the answer on, or
    does nothing; it never uploads. *)
Theorem run_shape (this : Storage.t) (req : Req) :
  (∀ file env, ∃ evs tail,
     trace (_handleFile this req file env) = evs ++ tail
     ∧ (evs = [] ∨ ∃ field, evs = [Produced field])
     ∧ (tail = [] ∨ (∃ result, tail = [Callback result])
        ∨ ∃ params result, tail = [Upload params; Callback result])
     ∧ (thrown (_handleFile this req file env) ≠ None → tail = []))
  ∧ (∀ file,
     trace (_removeFile this req file) = []
     ∨ ∃ params result, trace (_removeFile this req file)
                        = [DeleteObject params; Removed result]).
Proof.
  split.
  - intros file env.
    destruct (collect this req file env) as [err|attrs|] eqn:Hattrs.
    + exists [], [Callback (inl err)]. unfold _handleFile. rewrite Hattrs.
      split_and!; eauto. by intros [].
    + destruct (resolve_transform_cases this file env)
        as [(evs & t & Ht & Hevs)|(err & Ht)].
      2: { rewrite (handleFile_transform_throws _ _ _ _ _ _ _ Hattrs Ht).
           exists [], []. split_and!; eauto. }
      rewrite (handleFile_resolved _ _ _ _ _ _ _ Hattrs Ht);
        (destruct (mismatch this file attrs);
         [ eexists _, [Callback _]; split_and!; eauto; by intros []
         | destruct (s3_upload this) as [? [err|upload]];
           [ eexists _, []; rewrite app_nil_r; split_and!; eauto
           | eexists _, [Upload _; Callback _]; split_and!; eauto; by intros [] ] ]).
    + exists [], []. unfold _handleFile. rewrite Hattrs. split_and!; eauto.
  - intros file. unfold _removeFile.
    destruct (Storage.s3 this) as [| | | | | | |client|]; try by left.
    destruct (S3.deleteObject client); [ right; by eexists _, _ | by left ].
Qed.

(** ** An upload with the defaults *)

(** X18.  An adapter built from a bucket name and the mock client alone
    uploads every file under the default key, with acl ['private'],
    storage class ['STANDARD'], content type ['application/octet-stream']
    and the file's own stream as body, and reports the number of bytes of
    the file as size together with the mock's location and etag, in
    whatever order the strategies answer and whatever the enforcement
    flag is. *)
Theorem default_upload_to_mock (randomBytes : nat -> error + list Byte.byte)
    (bucket : string) (enforce : val unit unit) (req : Req) (file : File.t) (env : Env)
    (raw : list Byte.byte) :
  randomBytes 16 = inr raw →
  completion env ≡ₚ seq 0 9 →
  S3Storage randomBytes (bucket_opts (VObj createMockS3) bucket enforce VUndefined)
  = inr (bucket_storage randomBytes (VObj createMockS3) bucket enforce VUndefined)
  ∧ _handleFile (bucket_storage randomBytes (VObj createMockS3) bucket enforce VUndefined)
      req file env
    = ([Upload {|
          Params.Bucket := VStr bucket;
          Params.Key := VStr (toString_hex raw);
          Params.ACL := VStr "private";
          Params.CacheControl := VNull;
          Params.ContentType := "application/octet-stream";
          Params.Metadata := VNull;
          Params.StorageClass := VStr "STANDARD";
          Params.ServerSideEncryption := VNull;
          Params.SSEKMSKeyId := VNull;
          Params.Body := File.stream file;
          Params.ContentDisposition := None
        |};
        Callback (inr {|
          Info.size := Z.of_nat (length (bytes (File.stream file)));
          Info.bucket := VStr bucket;
          Info.key := VStr (toString_hex raw);
          Info.acl := VStr "private";
          Info.contentType := "application/octet-stream";
          Info.contentDisposition := VNull;
          Info.storageClass := VStr "STANDARD";
          Info.serverSideEncryption := VNull;
          Info.metadata := VNull;
          Info.location := VStr "mock-location";
          Info.etag := VStr "mock-etag";
          Info.versionId := VUndefined
        |})],
       inr tt).
Proof.
  intros Hraw Hperm. split; [ reflexivity | ].
  pose proof (collect_resolves
    (bucket_storage randomBytes (VObj createMockS3) bucket enforce VUndefined)
    req file env (VStr bucket) (VStr (toString_hex raw)) (VStr "private") VNull VNull
    VNull (VStr "STANDARD") VNull VNull "application/octet-stream" None Hperm) as Hattrs.
  simpl in Hattrs. unfold defaultKey in Hattrs. rewrite Hraw in Hattrs.
  specialize (Hattrs eq_refl eq_refl eq_refl eq_refl eq_refl eq_refl eq_refl eq_refl
                eq_refl eq_refl).
  erewrite (handleFile_uploads _ _ _ _ _ [] None createMockS3);
    [ | exact Hattrs | reflexivity | | reflexivity | reflexivity ].
  - simpl. unfold on_progress, file_info. simpl.
    by destruct (Z.eqb_spec (Z.of_nat (length (bytes (File.stream file)))) 0) as [<-|].
  - unfold mismatch. simpl. by rewrite andb_false_r.
Qed.

Lemma default_upload_to_mock_witness :
  ∃ params info,
    _handleFile (bucket_storage zeroBytes (VObj createMockS3) "test" VUndefined VUndefined)
      no_request png_file reversed
    = ([Upload params; Callback (inr info)], inr tt)
    ∧ Info.size info = 12%Z
    ∧ Info.bucket info = VStr "test"
    ∧ Info.etag info = VStr "mock-etag"
    ∧ Info.location info = VStr "mock-location".
Proof.
  eexists _, _. split.
  - apply (default_upload_to_mock zeroBytes "test" VUndefined no_request png_file
             reversed (replicate 16 Byte.x00) eq_refl).
    apply Permutation_sym, Permutation_rev.
  - by split_and!.
Defined.
